(** * Report intake: format detection and ingestion

    A shallow embedding of [apps/frontend/src/store/report_intake.ts]
    (the [InspecIntake] Vuex module): the fingerprint table, [guessType],
    [isHDF], [convertToHdf], [loadText], [loadExecJson] and [loadFile].

    The module is written against collaborators that live elsewhere:
    [JSON.parse], lodash's [_.get], the [hdf-converters] mappers,
    [inspecjs]'s [convertFile] and [contextualize*], [uuid], and the
    sibling stores.  [_.get] and the JavaScript notions the code relies on
    (truthiness, [indexOf], [Object.freeze]) are modelled below; the other
    collaborators are Section variables, so that every theorem holds for
    all of their behaviours. *)

From Stdlib Require Import ZArith QArith Qabs Ascii String List Bool Lia.
From stdpp Require Import base option list strings gmap.

Set Warnings "-register-all".

Open Scope string_scope.
Open Scope list_scope.

(** ** Parsed JSON documents *)

(** What [JSON.parse] returns.  An object is kept as its list of
    bindings in insertion order; a number is kept as a rational (the code
    only ever tests numbers for being zero). *)
Inductive json : Type :=
  | JNull
  | JBool (b : bool)
  | JNum (q : Q)
  | JStr (s : string)
  | JArr (items : list json)
  | JObj (fields : list (string * json)).

(** A JavaScript value as far as this module looks at it: [None] is
    [undefined]. *)
Definition jsval : Type := option json.

(** [Boolean(v)], the test behind [if (v)], [filter] callbacks and [&&]. *)
Definition truthy (v : jsval) : bool :=
  match v with
  | None => false
  | Some JNull => false
  | Some (JBool b) => b
  | Some (JNum q) => negb (Qnum q =? 0)%Z
  | Some (JStr s) => negb (String.eqb s EmptyString)
  | Some (JArr _) => true
  | Some (JObj _) => true
  end.

(** [Array.isArray(v)]. *)
Definition isArray (v : jsval) : bool :=
  match v with
  | Some (JArr _) => true
  | _ => false
  end.

(** ** Property access *)

Fixpoint assoc (k : string) (fields : list (string * json)) : jsval :=
  match fields with
  | [] => None
  | (k', v) :: rest => if String.eqb k k' then Some v else assoc k rest
  end.

Definition is_digit (c : ascii) : bool :=
  (48 <=? nat_of_ascii c)%nat && (nat_of_ascii c <=? 57)%nat.

Fixpoint digits_value (acc : nat) (s : string) : option nat :=
  match s with
  | EmptyString => Some acc
  | String c rest =>
      if is_digit c
      then digits_value (10 * acc + (nat_of_ascii c - 48)) rest
      else None
  end.

(** A property key that is a canonical array index: decimal digits, no
    leading zero unless it is ["0"]. *)
Definition array_index (k : string) : option nat :=
  match k with
  | EmptyString => None
  | String c rest =>
      if Ascii.eqb c "0"
      then (match rest with EmptyString => Some 0%nat | _ => None end)
      else digits_value 0 k
  end.

Fixpoint string_nth (n : nat) (s : string) : option ascii :=
  match s, n with
  | EmptyString, _ => None
  | String c _, O => Some c
  | String _ rest, S n' => string_nth n' rest
  end.

(** [o[k]] for a value [o] that is neither [null] nor [undefined]: own
    properties of objects, elements and [length] of arrays and strings.
    Properties inherited from the built-in prototypes are left out; no
    key of the fingerprint table names one. *)
Definition getProp (o : json) (k : string) : jsval :=
  match o with
  | JObj fields => assoc k fields
  | JArr items =>
      match array_index k with
      | Some i => nth_error items i
      | None =>
          if String.eqb k "length"
          then Some (JNum (inject_Z (Z.of_nat (List.length items))))
          else None
      end
  | JStr s =>
      match array_index k with
      | Some i =>
          match string_nth i s with
          | Some c => Some (JStr (String c EmptyString))
          | None => None
          end
      | None =>
          if String.eqb k "length"
          then Some (JNum (inject_Z (Z.of_nat (String.length s))))
          else None
      end
  | _ => None
  end.

(** [o.k] as the language evaluates it: reading a property of [null]
    (or [undefined]) throws a TypeError, here [None]. *)
Definition member (o : jsval) (k : string) : option jsval :=
  match o with
  | None | Some JNull => None
  | Some v => Some (getProp v k)
  end.

(** ** lodash [_.get] *)

Module Lodash.

Definition is_word (c : ascii) : bool :=
  let n := nat_of_ascii c in
  is_digit c
  || ((65 <=? n)%nat && (n <=? 90)%nat)
  || ((97 <=? n)%nat && (n <=? 122)%nat)
  || (n =? 95)%nat.

Fixpoint all_chars (p : ascii -> bool) (s : string) : bool :=
  match s with
  | EmptyString => true
  | String c rest => p c && all_chars p rest
  end.

Fixpoint has_char (c : ascii) (s : string) : bool :=
  match s with
  | EmptyString => false
  | String c' rest => Ascii.eqb c c' || has_char c rest
  end.

(** Some ["["] is followed, later on, by a ["]"]. *)
Fixpoint has_bracket_pair (s : string) : bool :=
  match s with
  | EmptyString => false
  | String c rest =>
      (Ascii.eqb c "[" && has_char "]" rest) || has_bracket_pair rest
  end.

(** [reIsPlainProp = /^\w*$/]. *)
Definition isPlainProp (s : string) : bool := all_chars is_word s.

(** [reIsDeepProp]: a dot, or a bracketed group. *)
Definition isDeepProp (s : string) : bool :=
  has_char "." s || has_bracket_pair s.

(** [isKey(value, object)] for a string [value]. *)
Definition isKey (path : string) (object : jsval) : bool :=
  isPlainProp path
  || negb (isDeepProp path)
  || match object with
     | None | Some JNull => false
     | Some o => match getProp o path with Some _ => true | None => false end
     end.

Definition is_separator (c : ascii) : bool :=
  Ascii.eqb c "." || Ascii.eqb c "[" || Ascii.eqb c "]".

Definition flush (cur : string) (acc : list string) : list string :=
  match cur with
  | EmptyString => acc
  | _ => acc ++ [cur]
  end.

Fixpoint split_path (s : string) (cur : string) (acc : list string)
  : list string :=
  match s with
  | EmptyString => flush cur acc
  | String c rest =>
      if is_separator c
      then split_path rest EmptyString (flush cur acc)
      else split_path rest (cur +:+ String c EmptyString) acc
  end.

(** [stringToPath]: the property names between dots and brackets.  This
    is lodash's result on every path that has no quoted segment, no
    empty segment and no fractional bracket index, which covers the
    fingerprint table. *)
Definition stringToPath (s : string) : list string :=
  split_path s EmptyString [].

(** [castPath(value, object)]. *)
Definition castPath (path : string) (object : jsval) : list string :=
  if isKey path object then [path] else stringToPath path.

(** The loop of [baseGet]: it stops at the first [null] or [undefined]
    and then answers [undefined] unless every key was used. *)
Fixpoint baseGet_loop (object : jsval) (keys : list string) : jsval :=
  match keys with
  | [] => object
  | k :: rest =>
      match object with
      | None | Some JNull => None
      | Some o => baseGet_loop (getProp o k) rest
      end
  end.

Definition baseGet (object : jsval) (path : string) : jsval :=
  match castPath path object with
  | [] => None
  | keys => baseGet_loop object keys
  end.

(** [_.get(object, path)]: [undefined] for a [null] object, the walk
    otherwise.  It is a total function: there is no error case. *)
Definition get (object : jsval) (path : string) : jsval :=
  match object with
  | None | Some JNull => None
  | _ => baseGet object path
  end.

End Lodash.

(** ** The fingerprint table *)

(** [Object.entries(fileTypeFingerprints)]: the entries in declaration
    order. *)
Definition fileTypeFingerprints : list (string * list string) :=
  [ ("fortify", ["FVDL"; "FVDL.EngineData.EngineVersion"; "FVDL.UUID"]);
    ("jfrog", ["total_count"; "data"]);
    ("nikto", ["banner"; "host"; "ip"; "port"; "vulnerabilities"]);
    ("sarif", ["$schema"; "version"; "runs"]);
    ("snyk", ["projectName"; "policy"; "summary"; "vulnerabilities";
              "vulnerabilities[0].identifiers"]);
    ("zap", ["@generated"; "@version"; "site"]) ].

(** ** guessType *)

(** [paths.filter((value) => _.get(parsedJSON, value)).length]. *)
Definition matchCount (parsedJSON : jsval) (paths : list string) : nat :=
  List.length (List.filter (fun value => truthy (Lodash.get parsedJSON value)) paths).

(** The callback handed to [reduce]. *)
Definition pick (parsedJSON : jsval) (a b : string * list string)
  : string * list string :=
  if (matchCount parsedJSON (snd b) <? matchCount parsedJSON (snd a))%nat
  then a else b.

(** [Array.prototype.reduce] without an initial value: [None] stands for
    the TypeError on an empty array. *)
Definition reduce {A : Type} (f : A -> A -> A) (l : list A) : option A :=
  match l with
  | [] => None
  | a :: rest => Some (fold_left f rest a)
  end.

Definition guessTypeOn (table : list (string * list string))
  (parsedJSON : jsval) : option string :=
  fst <$> reduce (pick parsedJSON) table.

Definition guessType (parsedJSON : jsval) : string :=
  match guessTypeOn fileTypeFingerprints parsedJSON with
  | Some name => name
  | None => EmptyString
  end.

(** ** String operations of the language *)

Definition lower_char (c : ascii) : ascii :=
  let n := nat_of_ascii c in
  if ((65 <=? n)%nat && (n <=? 90)%nat)%bool then ascii_of_nat (n + 32) else c.

(** [s.toLowerCase()], on the ASCII letters. *)
Fixpoint toLowerCase (s : string) : string :=
  match s with
  | EmptyString => EmptyString
  | String c rest => String (lower_char c) (toLowerCase rest)
  end.

(** [s.endsWith(suffix)]. *)
Definition endsWith (s suffix : string) : bool :=
  let n := String.length s in
  let m := String.length suffix in
  (m <=? n)%nat && String.eqb (substring (n - m) m s) suffix.

(** [s.indexOf(sub)]: the position of the first occurrence, [-1] when
    there is none. *)
Definition indexOf (s sub : string) : Z :=
  match index 0 sub s with
  | Some n => Z.of_nat n
  | None => (-1)%Z
  end.

(** A number used as a condition: [0] is the only falsy index. *)
Definition truthy_index (i : Z) : bool := negb (i =? 0)%Z.

(** [sub] occurs in [s]. *)
Definition contains (s sub : string) : bool := negb (indexOf s sub =? -1)%Z.

(** ** A reference [JSON.parse]

    The intake code is stated over any parser (see the Section below).
    This one follows the JSON grammar and serves to run the code on
    concrete texts.  [None] stands for the SyntaxError. *)

Module JsonText.

Definition is_ws (c : ascii) : bool :=
  let n := nat_of_ascii c in
  (n =? 32)%nat || (n =? 9)%nat || (n =? 10)%nat || (n =? 13)%nat.

Fixpoint skip_ws (s : string) : string :=
  match s with
  | String c rest => if is_ws c then skip_ws rest else s
  | EmptyString => s
  end.

Definition hex_value (c : ascii) : option nat :=
  let n := nat_of_ascii c in
  if is_digit c then Some (n - 48)%nat
  else if ((65 <=? n)%nat && (n <=? 70)%nat)%bool then Some (n - 55)%nat
  else if ((97 <=? n)%nat && (n <=? 102)%nat)%bool then Some (n - 87)%nat
  else None.

(** The UTF-8 bytes of a code unit given by a [\uXXXX] escape. *)
Definition utf8 (n : nat) : string :=
  if (n <? 128)%nat then String (ascii_of_nat n) EmptyString
  else if (n <? 2048)%nat then
    String (ascii_of_nat (192 + n / 64))
      (String (ascii_of_nat (128 + n mod 64)) EmptyString)
  else
    String (ascii_of_nat (224 + n / 4096))
      (String (ascii_of_nat (128 + (n / 64) mod 64))
         (String (ascii_of_nat (128 + n mod 64)) EmptyString)).

Definition escape (c : ascii) : option ascii :=
  let n := nat_of_ascii c in
  if (n =? 34)%nat then Some c
  else if (n =? 92)%nat then Some c
  else if (n =? 47)%nat then Some c
  else if (n =? 98)%nat then Some (ascii_of_nat 8)
  else if (n =? 102)%nat then Some (ascii_of_nat 12)
  else if (n =? 110)%nat then Some (ascii_of_nat 10)
  else if (n =? 114)%nat then Some (ascii_of_nat 13)
  else if (n =? 116)%nat then Some (ascii_of_nat 9)
  else None.

(** The characters of a string literal after its opening quote, up to
    and including the closing one; the rest of the text is returned. *)
Fixpoint string_body (s : string) : option (string * string) :=
  match s with
  | EmptyString => None
  | String c rest =>
      let n := nat_of_ascii c in
      if (n =? 34)%nat then Some (EmptyString, rest)
      else if (n <? 32)%nat then None
      else if (n =? 92)%nat then
        match rest with
        | String e rest' =>
            if (nat_of_ascii e =? 117)%nat then
              match rest' with
              | String a (String b (String c' (String d rest''))) =>
                  match hex_value a, hex_value b, hex_value c', hex_value d with
                  | Some a, Some b, Some c', Some d =>
                      match string_body rest'' with
                      | Some (body, after) =>
                          Some (utf8 (4096 * a + 256 * b + 16 * c' + d) +:+ body, after)
                      | None => None
                      end
                  | _, _, _, _ => None
                  end
              | _ => None
              end
            else
              match escape e, string_body rest' with
              | Some x, Some (body, after) => Some (String x body, after)
              | _, _ => None
              end
        | EmptyString => None
        end
      else
        match string_body rest with
        | Some (body, after) => Some (String c body, after)
        | None => None
        end
  end.

(** A run of decimal digits: their value, how many there are, the rest. *)
Fixpoint digits (acc : Z) (count : nat) (s : string) : Z * nat * string :=
  match s with
  | String c rest =>
      if is_digit c
      then digits (10 * acc + Z.of_nat (nat_of_ascii c - 48)) (S count) rest
      else (acc, count, s)
  | EmptyString => (acc, count, s)
  end.

Definition pow10 (e : Z) : Q :=
  if (0 <=? e)%Z then inject_Z (10 ^ e)
  else Qmake 1 (Z.to_pos (10 ^ (- e))).

Definition leading_zero (s : string) : bool :=
  match s with
  | String a (String b _) => Ascii.eqb a "0" && is_digit b
  | _ => false
  end.

(** A literal whose magnitude is at most 2^-1075, half the least positive
    double, is read as zero; any other value is kept exact (the code
    tests numbers for being zero only). *)
Definition round_to_zero (q : Q) : Q :=
  if Qle_bool (Qabs q) (Qmake 1 (2 ^ 1075)) then 0%Q else q.

(** [-? int frac? exp?] *)
Definition number (s : string) : option (Q * string) :=
  let '(neg, s1) :=
    match s with
    | String c rest => if Ascii.eqb c "-" then (true, rest) else (false, s)
    | EmptyString => (false, s)
    end in
  if leading_zero s1 then None else
  let '(int, n_int, s2) := digits 0 0 s1 in
  if (n_int =? 0)%nat then None else
  let frac :=
    match s2 with
    | String c rest =>
        if Ascii.eqb c "."
        then (let '(m, k, s3) := digits int 0 rest in
              if (k =? 0)%nat then None else Some (m, k, s3))
        else Some (int, 0%nat, s2)
    | EmptyString => Some (int, 0%nat, s2)
    end in
  match frac with
  | None => None
  | Some (m, k, s3) =>
      let expo :=
        match s3 with
        | String c rest =>
            if (Ascii.eqb c "e" || Ascii.eqb c "E")%bool then
              let '(eneg, s4) :=
                match rest with
                | String d rest' =>
                    if Ascii.eqb d "-" then (true, rest')
                    else if Ascii.eqb d "+" then (false, rest')
                    else (false, rest)
                | EmptyString => (false, rest)
                end in
              let '(e, n_e, s5) := digits 0 0 s4 in
              if (n_e =? 0)%nat then None
              else Some ((if eneg then - e else e)%Z, s5)
            else Some (0%Z, s3)
        | EmptyString => Some (0%Z, s3)
        end in
      match expo with
      | None => None
      | Some (e, s5) =>
          let mant := (if neg then - m else m)%Z in
          Some (round_to_zero (Qmult (inject_Z mant) (pow10 (e - Z.of_nat k))),
                s5)
      end
  end.

Fixpoint starts_with (prefix s : string) : option string :=
  match prefix, s with
  | EmptyString, _ => Some s
  | String a p', String b s' => if Ascii.eqb a b then starts_with p' s' else None
  | String _ _, EmptyString => None
  end.

(** A later binding of a key replaces the value of the earlier one. *)
Fixpoint set_field (k : string) (v : json) (fields : list (string * json))
  : list (string * json) :=
  match fields with
  | [] => [(k, v)]
  | (k', v') :: rest =>
      if String.eqb k k' then (k', v) :: rest else (k', v') :: set_field k v rest
  end.

Fixpoint value (fuel : nat) (s : string) : option (json * string) :=
  match fuel with
  | O => None
  | S fuel' =>
      match s with
      | EmptyString => None
      | String c rest =>
          if Ascii.eqb c "{" then
            match skip_ws rest with
            | String d rest' =>
                if Ascii.eqb d "}" then Some (JObj [], rest')
                else members fuel' [] (skip_ws rest)
            | EmptyString => None
            end
          else if Ascii.eqb c "[" then
            match skip_ws rest with
            | String d rest' =>
                if Ascii.eqb d "]" then Some (JArr [], rest')
                else elements fuel' [] (skip_ws rest)
            | EmptyString => None
            end
          else if (nat_of_ascii c =? 34)%nat then
            match string_body rest with
            | Some (body, after) => Some (JStr body, after)
            | None => None
            end
          else if Ascii.eqb c "t" then
            option_map (fun r => (JBool true, r)) (starts_with "true" s)
          else if Ascii.eqb c "f" then
            option_map (fun r => (JBool false, r)) (starts_with "false" s)
          else if Ascii.eqb c "n" then
            option_map (fun r => (JNull, r)) (starts_with "null" s)
          else
            option_map (fun '(q, r) => (JNum q, r)) (number s)
      end
  end
with elements (fuel : nat) (acc : list json) (s : string)
  : option (json * string) :=
  match fuel with
  | O => None
  | S fuel' =>
      match value fuel' s with
      | Some (v, after) =>
          match skip_ws after with
          | String d rest =>
              if Ascii.eqb d "," then elements fuel' (acc ++ [v]) (skip_ws rest)
              else if Ascii.eqb d "]" then Some (JArr (acc ++ [v]), rest)
              else None
          | EmptyString => None
          end
      | None => None
      end
  end
with members (fuel : nat) (acc : list (string * json)) (s : string)
  : option (json * string) :=
  match fuel with
  | O => None
  | S fuel' =>
      match s with
      | String q rest =>
          if (nat_of_ascii q =? 34)%nat then
            match string_body rest with
            | Some (key, after) =>
                match skip_ws after with
                | String colon rest' =>
                    if Ascii.eqb colon ":" then
                      match value fuel' (skip_ws rest') with
                      | Some (v, after') =>
                          match skip_ws after' with
                          | String d rest'' =>
                              if Ascii.eqb d ","
                              then members fuel' (set_field key v acc) (skip_ws rest'')
                              else if Ascii.eqb d "}"
                              then Some (JObj (set_field key v acc), rest'')
                              else None
                          | EmptyString => None
                          end
                      | None => None
                      end
                    else None
                | EmptyString => None
                end
            | None => None
            end
          else None
      | EmptyString => None
      end
  end.

(** One value, surrounded by optional white space, and nothing else. *)
Definition parse (text : string) : option json :=
  match value (S (String.length text)) (skip_ws text) with
  | Some (v, after) =>
      match skip_ws after with
      | EmptyString => Some v
      | String _ _ => None
      end
  | None => None
  end.

End JsonText.

(** ** Effects: exceptions, the object heap and the stores *)

Inductive exn : Type :=
  | SyntaxError
  | TypeError
  | Error (message : string).

(** What a property of a heap object may hold. *)
Inductive value : Type :=
  | VUndefined
  | VString (s : string)
  | VJson (j : json)
  | VRef (l : nat).

(** A mutable object: its properties, and whether [Object.freeze] was
    applied to it. *)
Record object : Type := {
  props : list (string * value);
  frozen : bool
}.

Definition FileID : Type := string.

(** What was done to the objects and asked of the two stores, in the
    order in which it happened. *)
Inductive event : Type :=
  | Created (l : nat)
  | Assigned (l : nat) (k : string)
  | Deleted (l : nat) (k : string)
  | Froze (l : nat)
  | AddedExecution (evalFile : nat)
  | AddedProfile (profileFile : nat)
  | ToggledEvaluation (id : FileID)
  | ToggledProfile (id : FileID).

(** Everything the intake actions read or change: the objects they build,
    the identifiers drawn so far, the data store ([InspecDataModule]), the
    selection store ([FilteredDataModule]), the notifications shown
    ([SnackbarModule]) and the console.  [history] is a record of the
    writes to objects and of the calls to the two stores, oldest first;
    no action reads it. *)
Record state : Type := {
  heap : gmap nat object;
  allocated : nat;
  minted : nat;
  executionFiles : list nat;
  profileFiles : list nat;
  selectedEvaluationIds : list FileID;
  selectedProfileIds : list FileID;
  snackbar : list string;
  console : list (list string);
  history : list event
}.

Inductive outcome (A : Type) : Type :=
  | Returned (a : A)
  | Thrown (e : exn).
Arguments Returned {A} a.
Arguments Thrown {A} e.

(** An action: it runs from a state and returns or throws, leaving a
    state behind either way. *)
Definition M (A : Type) : Type := state -> outcome A * state.

Definition ret {A : Type} (a : A) : M A := fun st => (Returned a, st).

Definition throw {A : Type} (e : exn) : M A := fun st => (Thrown e, st).

Definition bind {A B : Type} (m : M A) (k : A -> M B) : M B :=
  fun st =>
    match m st with
    | (Returned a, st') => k a st'
    | (Thrown e, st') => (Thrown e, st')
    end.

(** [try { body } catch { handler }]. *)
Definition tryCatch {A : Type} (body : M A) (handler : M A) : M A :=
  fun st =>
    match body st with
    | (Returned a, st') => (Returned a, st')
    | (Thrown _, st') => handler st'
    end.

(** The result of a call that computes without touching the state. *)
Definition lift {A : Type} (r : exn + A) : M A :=
  match r with
  | inl e => throw e
  | inr a => ret a
  end.

(** [Promise.all]: the values in order when every promise is fulfilled,
    the reason of the first rejected one otherwise. *)
Fixpoint promiseAll {A : Type} (outcomes : list (outcome A))
  : outcome (list A) :=
  match outcomes with
  | [] => Returned []
  | Thrown e :: _ => Thrown e
  | Returned a :: rest =>
      match promiseAll rest with
      | Returned others => Returned (a :: others)
      | Thrown e => Thrown e
      end
  end.

Declare Scope intake_scope.
Delimit Scope intake_scope with intake.
Notation "'let*' x := m 'in' k" := (bind m (fun x => k))
  (at level 10, x name, m at level 100, k at level 200) : intake_scope.
Notation "m ;; k" := (bind m (fun _ => k))
  (at level 100, k at level 200, right associativity) : intake_scope.
Open Scope intake_scope.

(** *** Objects *)

Fixpoint set_prop (k : string) (v : value) (ps : list (string * value))
  : list (string * value) :=
  match ps with
  | [] => [(k, v)]
  | (k', v') :: rest =>
      if String.eqb k k' then (k', v) :: rest else (k', v') :: set_prop k v rest
  end.

Fixpoint get_prop (k : string) (ps : list (string * value)) : value :=
  match ps with
  | [] => VUndefined
  | (k', v) :: rest => if String.eqb k k' then v else get_prop k rest
  end.

Fixpoint remove_prop (k : string) (ps : list (string * value))
  : list (string * value) :=
  match ps with
  | [] => []
  | (k', v) :: rest =>
      if String.eqb k k' then rest else (k', v) :: remove_prop k rest
  end.

Definition with_heap (h : gmap nat object) (done : event) (st : state)
  : state :=
  {| heap := h; allocated := allocated st; minted := minted st;
     executionFiles := executionFiles st; profileFiles := profileFiles st;
     selectedEvaluationIds := selectedEvaluationIds st;
     selectedProfileIds := selectedProfileIds st;
     snackbar := snackbar st; console := console st;
     history := history st ++ [done] |}.

(** An object literal (or an object a library returns): a fresh, unfrozen
    object. *)
Definition newObject (ps : list (string * value)) : M nat :=
  fun st =>
    let l := allocated st in
    (Returned l,
     {| heap := <[l := {| props := ps; frozen := false |}]> (heap st);
        allocated := S l; minted := minted st;
        executionFiles := executionFiles st; profileFiles := profileFiles st;
        selectedEvaluationIds := selectedEvaluationIds st;
        selectedProfileIds := selectedProfileIds st;
        snackbar := snackbar st; console := console st;
        history := history st ++ [Created l] |}).

(** [o.k = v] in strict code (a module): a TypeError on a frozen object,
    whether [k] exists or not, and the object is left as it was. *)
Definition assign (l : nat) (k : string) (v : value) : M unit :=
  fun st =>
    match heap st !! l with
    | Some o =>
        if frozen o then (Thrown TypeError, st)
        else (Returned tt,
              with_heap (<[l := {| props := set_prop k v (props o);
                                   frozen := false |}]> (heap st))
                (Assigned l k) st)
    | None => (Thrown TypeError, st)
    end.

(** [delete o.k] in strict code. *)
Definition deleteProp (l : nat) (k : string) : M unit :=
  fun st =>
    match heap st !! l with
    | Some o =>
        if frozen o then (Thrown TypeError, st)
        else (Returned tt,
              with_heap (<[l := {| props := remove_prop k (props o);
                                   frozen := false |}]> (heap st))
                (Deleted l k) st)
    | None => (Thrown TypeError, st)
    end.

(** [Object.freeze(o)]. *)
Definition freeze (l : nat) : M unit :=
  fun st =>
    match heap st !! l with
    | Some o =>
        (Returned tt,
         with_heap (<[l := {| props := props o; frozen := true |}]> (heap st))
           (Froze l) st)
    | None => (Returned tt, st)
    end.

Definition isFrozen (st : state) (l : nat) : bool :=
  match heap st !! l with
  | Some o => frozen o
  | None => false
  end.

Definition readProp (st : state) (l : nat) (k : string) : value :=
  match heap st !! l with
  | Some o => get_prop k (props o)
  | None => VUndefined
  end.

(** *** The sibling stores and helpers *)

(** Modelled from the spec: [InspecDataModule.addExecution] of
    [store/data_store] is not part of this excerpt.  The registration
    store accepts a finished record wrapper; the wrapper is appended to
    the registered execution files.  The call is noted in the history. *)
Definition addExecution (evalFile : nat) : M unit :=
  fun st =>
    (Returned tt,
     {| heap := heap st; allocated := allocated st; minted := minted st;
        executionFiles := executionFiles st ++ [evalFile];
        profileFiles := profileFiles st;
        selectedEvaluationIds := selectedEvaluationIds st;
        selectedProfileIds := selectedProfileIds st;
        snackbar := snackbar st; console := console st;
        history := history st ++ [AddedExecution evalFile] |}).

(** Modelled from the spec: [InspecDataModule.addProfile] of
    [store/data_store] is not part of this excerpt; the wrapper is
    appended to the registered profile files.  The call is noted in the
    history. *)
Definition addProfile (profileFile : nat) : M unit :=
  fun st =>
    (Returned tt,
     {| heap := heap st; allocated := allocated st; minted := minted st;
        executionFiles := executionFiles st;
        profileFiles := profileFiles st ++ [profileFile];
        selectedEvaluationIds := selectedEvaluationIds st;
        selectedProfileIds := selectedProfileIds st;
        snackbar := snackbar st; console := console st;
        history := history st ++ [AddedProfile profileFile] |}).

(** Modelled from the spec: [FilteredDataModule.toggle_evaluation] of
    [store/data_filters] is not part of this excerpt.  The selection store
    accepts an identifier to mark as selected.  The call is noted in the
    history. *)
Definition toggle_evaluation (id : FileID) : M unit :=
  fun st =>
    (Returned tt,
     {| heap := heap st; allocated := allocated st; minted := minted st;
        executionFiles := executionFiles st; profileFiles := profileFiles st;
        selectedEvaluationIds := selectedEvaluationIds st ++ [id];
        selectedProfileIds := selectedProfileIds st;
        snackbar := snackbar st; console := console st;
        history := history st ++ [ToggledEvaluation id] |}).

(** Modelled from the spec: [FilteredDataModule.toggle_profile] of
    [store/data_filters] is not part of this excerpt; the identifier is
    marked selected among the profiles.  The call is noted in the
    history. *)
Definition toggle_profile (id : FileID) : M unit :=
  fun st =>
    (Returned tt,
     {| heap := heap st; allocated := allocated st; minted := minted st;
        executionFiles := executionFiles st; profileFiles := profileFiles st;
        selectedEvaluationIds := selectedEvaluationIds st;
        selectedProfileIds := selectedProfileIds st ++ [id];
        snackbar := snackbar st; console := console st;
        history := history st ++ [ToggledProfile id] |}).

(** Modelled from the spec: [SnackbarModule.failure] of [store/snackbar] is
    not part of this excerpt.  It is a fire-and-forget call that reports a
    single failure message string and has no return value. *)
Definition SnackbarModule_failure (message : string) : M unit :=
  fun st =>
    (Returned tt,
     {| heap := heap st; allocated := allocated st; minted := minted st;
        executionFiles := executionFiles st; profileFiles := profileFiles st;
        selectedEvaluationIds := selectedEvaluationIds st;
        selectedProfileIds := selectedProfileIds st;
        snackbar := snackbar st ++ [message]; console := console st;
        history := history st |}).

(** [console.error(lines)]. *)
Definition console_error (lines : list string) : M unit :=
  fun st =>
    (Returned tt,
     {| heap := heap st; allocated := allocated st; minted := minted st;
        executionFiles := executionFiles st; profileFiles := profileFiles st;
        selectedEvaluationIds := selectedEvaluationIds st;
        selectedProfileIds := selectedProfileIds st;
        snackbar := snackbar st; console := console st ++ [lines];
        history := history st |}).

(** An uploaded file: its declared name and its contents. *)
Record File : Type := {
  name : string;
  contents : string
}.

(** Modelled from the spec: [read_file_async] of [utilities/async_util] is
    not part of this excerpt; it yields the text of the uploaded file. *)
Definition read_file_async (file : File) : M string := ret (contents file).

(** ** The converters and the options of the entry points *)

(** The mappers imported from [@mitre/hdf-converters]. *)
Inductive Mapper : Type :=
  | BurpSuiteMapper
  | DBProtectMapper
  | JfrogXrayMapper
  | NessusResults
  | NetsparkerMapper
  | NiktoMapper
  | SarifMapper
  | ScoutsuiteMapper
  | SnykResults
  | XCCDFResultsMapper
  | ZapMapper.

(** What [toHdf()] yields: [ExecJSON.Execution | ExecJSON.Execution[]]. *)
Inductive Converted : Type :=
  | One (evaluation : json)
  | Many (evaluations : list json).

(** [ConversionResult] of [inspecjs], as far as [loadText] reads it. *)
Record ConversionResult : Type := {
  v1_0_ExecJson : option json;
  v1_0_ProfileJson : option json;
  errors : list string
}.

Record TextLoadOptions : Type := {
  tl_filename : string;
  tl_database_id : value;
  tl_createdAt : value;
  tl_updatedAt : value;
  tl_tags : value;
  tl_text : string
}.

Record ExecJSONLoadOptions : Type := {
  el_filename : string;
  el_database_id : value;
  el_createdAt : value;
  el_updatedAt : value;
  el_tags : value;
  el_data : json
}.

(** [Promise<FileID | FileID[]>], once settled. *)
Inductive Loaded : Type :=
  | OneID (id : FileID)
  | ManyIDs (ids : list FileID).

Definition no_fingerprints : string :=
  "Invalid file uploaded, no fingerprints matched.".

Definition could_not_parse : string :=
  "Couldn't parse data. See developer's tools for more details.".

(** The mapper picked in the [try] block from the guessed type. *)
Definition jsonChoice (typeGuess : string) : option Mapper :=
  if String.eqb typeGuess "jfrog" then Some JfrogXrayMapper
  else if String.eqb typeGuess "zap" then Some ZapMapper
  else if String.eqb typeGuess "nikto" then Some NiktoMapper
  else if String.eqb typeGuess "sarif" then Some SarifMapper
  else if String.eqb typeGuess "snyk" then Some SnykResults
  else None.

(** The double quote character, as a string. *)
Definition dquote : string := String (ascii_of_nat 34) EmptyString.

(** The XCCDF marker: schemaLocation=, a double quote, and the address
    of the NIST checklist schema. *)
Definition xccdf_schema : string :=
  "schemaLocation=" +:+ dquote +:+ "http://checklists.nist.gov/xccdf".

(** The mapper picked in the [catch] block from the file name and the
    text, in the order of the source.  [indexOf(..) !== -1] is
    [negb (_ =? -1)]; the last test of the DBProtect condition and the
    Netsparker test have no comparison, the index itself is the
    condition. *)
Definition heuristicChoice (fileName data : string) : option Mapper :=
  if endsWith (toLowerCase fileName) ".nessus" then Some NessusResults
  else if negb (indexOf data xccdf_schema =? -1)%Z
          || negb (indexOf (toLowerCase fileName) "xccdf" =? -1)%Z
  then Some XCCDFResultsMapper
  else if negb (indexOf data "issues burpVersion" =? -1)%Z
  then Some BurpSuiteMapper
  else if negb (indexOf data "scoutsuite_results" =? -1)%Z
  then Some ScoutsuiteMapper
  else if negb (indexOf data "Policy" =? -1)%Z
          && negb (indexOf data "Job Name" =? -1)%Z
          && negb (indexOf data "Check ID" =? -1)%Z
          && truthy_index (indexOf data "Result Status")
  then Some DBProtectMapper
  else if truthy_index (indexOf data "netsparker-enterprise")
  then Some NetsparkerMapper
  else None.

(** A state with no object, no file and no message. *)
Definition empty_state : state :=
  {| heap := ∅; allocated := 0; minted := 0;
     executionFiles := []; profileFiles := [];
     selectedEvaluationIds := []; selectedProfileIds := [];
     snackbar := []; console := []; history := [] |}.

(** The state after one failure notification. *)
Definition notified (message : string) (st : state) : state :=
  snd (SnackbarModule_failure message st).

(** The parsed value has a property of that name, whatever it holds. *)
Definition hasProperty (parsed : json) (k : string) : bool :=
  match getProp parsed k with
  | Some _ => true
  | None => false
  end.

(** No write to the object succeeds any more: it is frozen, and an
    assignment to, or a removal of, any of its properties throws and
    leaves the state as it was. *)
Definition sealed (st : state) (l : nat) : Prop :=
  isFrozen st l = true
  /\ forall k v,
       assign l k v st = (Thrown TypeError, st)
       /\ deleteProp l k st = (Thrown TypeError, st).

(** In the words of the specification: once registered the record is
    immutable, no attempted mutation succeeds, whether it is aimed at the
    content object or at an object the content object refers to. *)
Definition immutableRecord (st : state) (content : nat) : Prop :=
  forall l k v,
    (l = content \/ exists k', readProp st content k' = VRef l) ->
    fst (assign l k v st) = Thrown TypeError.

(** What an ingestion that returned has done, with the wrapper at the
    first free location and the content object next to it.  The history
    grew by exactly these steps, in this order: the two objects were
    created and linked, the content object was frozen, and only then was
    the wrapper handed to the data store and the identifier to the
    selection store.  The frozen object holds the properties [content] of
    the contextualized record and the back link; it is sealed, while the
    wrapper is not frozen; and the content of the registered file can
    still be replaced, by a new object the wrapper is made to point at,
    which leaves the old content object as it was. *)
Definition frozenBeforeRegistered (field : string)
  (registered : nat -> event) (selected : event)
  (content : list (string * value)) (st st' : state) : Prop :=
  let w := allocated st in
  let c := S (allocated st) in
  history st'
  = history st
    ++ [Created w; Created c; Assigned c "from_file"; Assigned w field;
        Froze c; registered w; selected]
  /\ heap st' !! c
     = Some {| props := set_prop "from_file" (VRef w) content; frozen := true |}
  /\ readProp st' w field = VRef c
  /\ sealed st' c
  /\ isFrozen st' w = false
  /\ (forall replacement,
        exists st'',
          (let* c2 := newObject replacement in assign w field (VRef c2)) st'
          = (Returned tt, st'')
          /\ readProp st'' w field = VRef (allocated st')
          /\ allocated st' <> c
          /\ heap st'' !! c = heap st' !! c).

Section Intake.

(** [JSON.parse]: [None] is the SyntaxError. *)
Variable JSON_parse : string -> option json.
(** [new M(data).toHdf()] for a mapper [M]: the constructor and the
    conversion run synchronously and either throw or yield the result. *)
Variable toHdf : Mapper -> string -> exn + Converted.
(** [convertFile(text, true)] of [inspecjs], taken to return its result
    record for every text. *)
Variable convertFile : string -> ConversionResult.
(** [contextualizeEvaluation] of [inspecjs]: it throws, or returns a fresh
    object, given here by its properties. *)
Variable contextualizeEvaluation : json -> exn + list (string * value).
(** [contextualizeProfile] of [inspecjs], likewise. *)
Variable contextualizeProfile : json -> exn + list (string * value).
(** [uuid()]: the identifier of the n-th draw. *)
Variable uuid : nat -> FileID.

Definition parseJSON (data : string) : M json :=
  match JSON_parse data with
  | Some parsed => ret parsed
  | None => throw SyntaxError
  end.

(** [parsed.k]; a TypeError when [parsed] is [null]. *)
Definition readMember (parsed : json) (k : string) : M jsval :=
  match member (Some parsed) k with
  | Some v => ret v
  | None => throw TypeError
  end.

Definition new_uuid : M FileID :=
  fun st =>
    (Returned (uuid (minted st)),
     {| heap := heap st; allocated := allocated st; minted := S (minted st);
        executionFiles := executionFiles st; profileFiles := profileFiles st;
        selectedEvaluationIds := selectedEvaluationIds st;
        selectedProfileIds := selectedProfileIds st;
        snackbar := snackbar st; console := console st;
        history := history st |}).

(** *** isHDF *)

Definition isHDF (data : string) : M bool :=
  tryCatch
    (let* parsed := parseJSON data in
     let* profiles := readMember parsed "profiles" in
     if isArray profiles then ret true
     else
       let* controls := readMember parsed "controls" in
       if truthy controls
       then (let* sha256 := readMember parsed "sha256" in ret (truthy sha256))
       else ret false)
    (ret false).

(** *** convertToHdf *)

(** The [try] block: [Some] is a [return] of a mapper's result, [None]
    is leaving the block without one. *)
Definition jsonDetection (data : string) : M (option Converted) :=
  let* parsed := parseJSON data in
  let typeGuess := guessType (Some parsed) in
  match jsonChoice typeGuess with
  | Some mapper => let* hdf := lift (toHdf mapper data) in ret (Some hdf)
  | None => ret None
  end.

(** The [catch] block. *)
Definition heuristicDetection (fileName data : string)
  : M (option Converted) :=
  match heuristicChoice fileName data with
  | Some mapper => let* hdf := lift (toHdf mapper data) in ret (Some hdf)
  | None => ret None
  end.

(** The result is [None] for [void]. *)
Definition convertToHdf (file : File) (data : string)
  : M (option Converted) :=
  let* returned :=
    tryCatch (jsonDetection data) (heuristicDetection (name file) data) in
  match returned with
  | Some hdf => ret (Some hdf)
  | None => SnackbarModule_failure no_fingerprints ;; ret None
  end.

(** *** loadText and loadExecJson *)

Definition loadText (options : TextLoadOptions) : M FileID :=
  let* fileID := new_uuid in
  let result := convertFile (tl_text options) in
  match v1_0_ExecJson result with
  | Some execJson =>
      let* evalFile :=
        newObject [("uniqueId", VString fileID);
                   ("filename", VString (tl_filename options));
                   ("database_id", tl_database_id options);
                   ("createdAt", tl_createdAt options);
                   ("updatedAt", tl_updatedAt options);
                   ("tags", tl_tags options)] in
      let* contextualized := lift (contextualizeEvaluation execJson) in
      let* evaluation := newObject contextualized in
      assign evaluation "from_file" (VRef evalFile) ;;
      assign evalFile "evaluation" (VRef evaluation) ;;
      freeze evaluation ;;
      addExecution evalFile ;;
      toggle_evaluation fileID ;;
      ret fileID
  | None =>
      match v1_0_ProfileJson result with
      | Some profileJson =>
          let* profileFile :=
            newObject [("uniqueId", VString fileID);
                       ("filename", VString (tl_filename options))] in
          let* contextualized := lift (contextualizeProfile profileJson) in
          let* profile := newObject contextualized in
          assign profile "from_file" (VRef profileFile) ;;
          assign profileFile "profile" (VRef profile) ;;
          freeze profile ;;
          addProfile profileFile ;;
          toggle_profile fileID ;;
          ret fileID
      | None =>
          console_error (errors result) ;;
          throw (Error could_not_parse)
      end
  end.

Definition loadExecJson (options : ExecJSONLoadOptions) : M FileID :=
  let* fileID := new_uuid in
  let* evalFile :=
    newObject [("uniqueId", VString fileID);
               ("filename", VString (el_filename options));
               ("database_id", el_database_id options);
               ("createdAt", el_createdAt options);
               ("updatedAt", el_updatedAt options);
               ("tags", el_tags options)] in
  let* contextualized := lift (contextualizeEvaluation (el_data options)) in
  let* evaluation := newObject contextualized in
  assign evaluation "from_file" (VRef evalFile) ;;
  assign evalFile "evaluation" (VRef evaluation) ;;
  freeze evaluation ;;
  addExecution evalFile ;;
  toggle_evaluation fileID ;;
  ret fileID.

(** *** loadFile *)

(** [converted.map((evaluation) => this.loadExecJson(..))]: every load
    is started, and runs, in the order of the array, whether or not an
    earlier one threw; the outcomes are kept in that order. *)
Fixpoint loadEach (fileName : string) (evaluations : list json) (st : state)
  : list (outcome FileID) * state :=
  match evaluations with
  | [] => ([], st)
  | evaluation :: rest =>
      let (first, st1) :=
        loadExecJson {| el_filename := fileName;
                        el_database_id := VUndefined;
                        el_createdAt := VUndefined;
                        el_updatedAt := VUndefined;
                        el_tags := VUndefined;
                        el_data := evaluation |} st in
      let (others, st') := loadEach fileName rest st1 in
      (first :: others, st')
  end.

(** [Promise.all(..)] over those loads. *)
Definition loadAll (fileName : string) (evaluations : list json)
  : M (list FileID) :=
  fun st =>
    let (outcomes, st') := loadEach fileName evaluations st in
    (promiseAll outcomes, st').

Definition loadFile (file : File) : M Loaded :=
  let* read := read_file_async file in
  let* hdf := isHDF read in
  if hdf then
    let* id :=
      loadText {| tl_filename := name file;
                  tl_database_id := VUndefined;
                  tl_createdAt := VUndefined;
                  tl_updatedAt := VUndefined;
                  tl_tags := VUndefined;
                  tl_text := read |} in
    ret (OneID id)
  else
    let* converted := convertToHdf file read in
    match converted with
    | Some (Many evaluations) =>
        let* ids := loadAll (name file) evaluations in ret (ManyIDs ids)
    | Some (One evaluation) =>
        let* id :=
          loadExecJson {| el_filename := name file;
                          el_database_id := VUndefined;
                          el_createdAt := VUndefined;
                          el_updatedAt := VUndefined;
                          el_tags := VUndefined;
                          el_data := evaluation |} in
        ret (OneID id)
    | None => ret (ManyIDs [])
    end.

(** *** Summaries of the dispatch *)

(** What [isHDF] answers on a parsed value. *)
Definition normalizedShape (parsed : json) : bool :=
  isArray (getProp parsed "profiles")
  || (truthy (getProp parsed "controls") && truthy (getProp parsed "sha256")).

(** The outcome of running the mapper the dispatcher picked. *)
Definition afterMapper (r : exn + Converted) (st : state)
  : outcome (option Converted) * state :=
  match r with
  | inl e => (Thrown e, st)
  | inr hdf => (Returned (Some hdf), st)
  end.

(** The [catch] block followed by the final statement. *)
Definition fallback (file : File) (data : string) (st : state)
  : outcome (option Converted) * state :=
  match heuristicChoice (name file) data with
  | Some mapper => afterMapper (toHdf mapper data) st
  | None => (Returned None, notified no_fingerprints st)
  end.


End Intake.

(** ** The specification's count, and sample documents *)

(** The count in the words of the specification: the paths that resolve
    to a value other than [undefined]. *)
Definition resolvedCount (parsedJSON : jsval) (paths : list string) : nat :=
  List.length
    (List.filter
       (fun value =>
          match Lodash.get parsedJSON value with
          | Some _ => true
          | None => false
          end) paths).

(** An object with [0] under total_count, the empty string under data
    and a banner. *)
Definition zeroed_jfrog_document : jsval :=
  Some (JObj [("total_count", JNum 0); ("data", JStr EmptyString); ("banner", JStr "x")]).

(** [{"$schema": "s", "version": "2.1.0", "runs": [], "policy": "p"}] *)
Definition sarif_document : jsval :=
  Some (JObj [("$schema", JStr "s"); ("version", JStr "2.1.0");
              ("runs", JArr []); ("policy", JStr "p")]).

(** [sarif_document] with the three zap fields added. *)
Definition sarif_and_zap_document : jsval :=
  Some (JObj [("$schema", JStr "s"); ("version", JStr "2.1.0");
              ("runs", JArr []); ("policy", JStr "p");
              ("@generated", JStr "now"); ("@version", JStr "2.11");
              ("site", JArr [])]).

(** [{"FVDL": 1, "total_count": 1}] *)
Definition tied_document : jsval :=
  Some (JObj [("FVDL", JNum 1); ("total_count", JNum 1)]).

(** ** Sample texts, files and collaborators *)

Definition quoted (s : string) : string := dquote +:+ s +:+ dquote.

(** An object with an empty array under controls and the empty string
    under sha256. *)
Definition empty_sha256_text : string :=
  "{" +:+ quoted "controls" +:+ ":[]," +:+ quoted "sha256" +:+ ":"
  +:+ quoted EmptyString +:+ "}".

(** [{"controls":[1],"sha256":"ab"}] *)
Definition profile_text : string :=
  "{" +:+ quoted "controls" +:+ ":[1]," +:+ quoted "sha256" +:+ ":"
  +:+ quoted "ab" +:+ "}".

(** [{"FVDL":{"UUID":"u"}}] *)
Definition fortify_text : string :=
  "{" +:+ quoted "FVDL" +:+ ":{" +:+ quoted "UUID" +:+ ":" +:+ quoted "u"
  +:+ "}}".

(** [{"vulnerabilities":[],"projectName":"x","policy":"y","summary":"z"}] *)
Definition snyk_text : string :=
  "{" +:+ quoted "vulnerabilities" +:+ ":[]," +:+ quoted "projectName" +:+ ":"
  +:+ quoted "x" +:+ "," +:+ quoted "policy" +:+ ":" +:+ quoted "y" +:+ ","
  +:+ quoted "summary" +:+ ":" +:+ quoted "z" +:+ "}".

(** A DBProtect export without its Result Status column. *)
Definition three_marker_text : string := "Policy,Job Name,Check ID".

(** The four DBProtect markers, Result Status first. *)
Definition status_first_text : string :=
  "Result Status,Policy,Job Name,Check ID".

(** A text that is not JSON and carries no marker at all. *)
Definition plain_text : string := "hello".

(** A text that is not JSON and starts with the Netsparker marker. *)
Definition netsparker_first_text : string := "netsparker-enterprise".

(** A mapper set in which ZapMapper throws and the others convert. *)
Definition zap_throws (mapper : Mapper) (data : string) : exn + Converted :=
  match mapper with
  | ZapMapper => inl (Error "no site")
  | _ => inr (One (JObj []))
  end.

(** A [convertFile] that recognizes nothing. *)
Definition recognizes_nothing (text : string) : ConversionResult :=
  {| v1_0_ExecJson := None; v1_0_ProfileJson := None;
     errors := ["not an execution"; "not a profile"] |}.

(** A [convertFile] that recognizes every text as an execution. *)
Definition recognizes_execution (text : string) : ConversionResult :=
  {| v1_0_ExecJson := Some (JObj [("profiles", JArr [])]);
     v1_0_ProfileJson := None; errors := [] |}.

(** A [convertFile] that recognizes every text as a profile. *)
Definition recognizes_profile (text : string) : ConversionResult :=
  {| v1_0_ExecJson := None;
     v1_0_ProfileJson := Some (JObj [("controls", JArr [])]); errors := [] |}.

Definition sample_contextualize (data : json)
  : exn + list (string * value) :=
  inr [("data", VJson data)].

Definition sample_uuid (n : nat) : FileID :=
  "file-" +:+ String (ascii_of_nat (48 + n)) EmptyString.

Definition sample_text_options : TextLoadOptions :=
  {| tl_filename := "run.json"; tl_database_id := VUndefined;
     tl_createdAt := VUndefined; tl_updatedAt := VUndefined;
     tl_tags := VUndefined; tl_text := profile_text |}.

Definition sample_exec_options : ExecJSONLoadOptions :=
  {| el_filename := "run.json"; el_database_id := VUndefined;
     el_createdAt := VUndefined; el_updatedAt := VUndefined;
     el_tags := VUndefined; el_data := JObj [("profiles", JArr [])] |}.

(** ** Notions used to describe the actions further *)

(** The parsed value is an object (not [null], a scalar or an array). *)
Definition isObject (parsed : json) : bool :=
  match parsed with
  | JObj _ => true
  | _ => false
  end.

(** The wrapper [w] and a content object are linked through [field] and
    [from_file], both were allocated already, and the content object is
    frozen. *)
Definition linked (st : state) (field : string) (w : nat) : Prop :=
  exists c,
    w < allocated st /\ c < allocated st
    /\ readProp st w field = VRef c
    /\ readProp st c "from_file" = VRef w
    /\ isFrozen st c = true.

(** Every registered file is linked to a frozen content object, and no
    wrapper is registered twice. *)
Definition registry_ok (st : state) : Prop :=
  (forall w, In w (executionFiles st) -> linked st "evaluation" w)
  /\ (forall w, In w (profileFiles st) -> linked st "profile" w)
  /\ NoDup (executionFiles st ++ profileFiles st).

(** What one ingestion does to the heap and to the counters: one
    identifier is drawn, a wrapper and a content object are allocated
    next to each other and linked through [field] and [from_file], the
    content is frozen and the wrapper is not, the wrapper records the
    identifier and the file name, and no other object is touched. *)
Definition ingested (field filename : string) (id : FileID)
  (st st' : state) : Prop :=
  allocated st' = S (S (allocated st))
  /\ minted st' = S (minted st)
  /\ (forall l, l <> allocated st -> l <> S (allocated st) ->
        heap st' !! l = heap st !! l)
  /\ readProp st' (allocated st) field = VRef (S (allocated st))
  /\ readProp st' (S (allocated st)) "from_file" = VRef (allocated st)
  /\ readProp st' (allocated st) "uniqueId" = VString id
  /\ readProp st' (allocated st) "filename" = VString filename
  /\ isFrozen st' (S (allocated st)) = true
  /\ isFrozen st' (allocated st) = false.

(** The objects that existed in [st] are the same in [st']. *)
Definition old_objects_kept (st st' : state) : Prop :=
  allocated st <= allocated st'
  /\ forall l, l < allocated st -> heap st' !! l = heap st !! l.

(** What a load that threw in [contextualize] leaves behind: one
    identifier was drawn and the wrapper was created, nothing else; no
    other object was touched, and the stores, the notifications and the
    console are as before. *)
Definition abandoned (st st' : state) : Prop :=
  allocated st' = S (allocated st)
  /\ minted st' = S (minted st)
  /\ (forall l, l <> allocated st -> heap st' !! l = heap st !! l)
  /\ executionFiles st' = executionFiles st
  /\ profileFiles st' = profileFiles st
  /\ selectedEvaluationIds st' = selectedEvaluationIds st
  /\ selectedProfileIds st' = selectedProfileIds st
  /\ snackbar st' = snackbar st
  /\ console st' = console st
  /\ history st' = history st ++ [Created (allocated st)].

(** [contextualize] returns on this record. *)
Definition accepted (contextualize : json -> exn + list (string * value))
  (data : json) : bool :=
  match contextualize data with
  | inr _ => true
  | inl _ => false
  end.

(** How the outcome of one load follows from [contextualize]: the load
    returns an identifier when it returns, and throws its error when it
    throws. *)
Definition outcome_of (contextualize : json -> exn + list (string * value))
  (evaluation : json) (r : outcome FileID) : Prop :=
  match contextualize evaluation with
  | inr _ => exists id, r = Returned id
  | inl e => r = Thrown e
  end.

(** A [contextualizeEvaluation] that rejects the empty object, as a record
    without profiles, and accepts every other value. *)
Definition needs_profiles (data : json) : exn + list (string * value) :=
  match data with
  | JObj [] => inl TypeError
  | _ => inr [("data", VJson data)]
  end.

(** A mapper set in which NessusResults yields three executions, the
    second of them the empty object, and every other mapper throws. *)
Definition nessus_one_bad_host (mapper : Mapper) (data : string)
  : exn + Converted :=
  match mapper with
  | NessusResults => inr (Many [JObj [("host", JStr "a")]; JObj [];
                                JObj [("host", JStr "c")]])
  | _ => inl (Error "unsupported")
  end.

(** How many identifiers a load returned. *)
Definition idCount (loaded : Loaded) : nat :=
  match loaded with
  | OneID _ => 1
  | ManyIDs ids => List.length ids
  end.

(** Options that carry a database id, dates and tags. *)
Definition tagged_text_options : TextLoadOptions :=
  {| tl_filename := "run.json"; tl_database_id := VString "42";
     tl_createdAt := VString "2021-01-01"; tl_updatedAt := VString "2021-01-02";
     tl_tags := VJson (JArr [JStr "prod"]); tl_text := profile_text |}.

(** A mapper set in which NessusResults yields two executions and every
    other mapper throws. *)
Definition nessus_two_hosts (mapper : Mapper) (data : string)
  : exn + Converted :=
  match mapper with
  | NessusResults => inr (Many [JObj [("host", JStr "a")];
                                JObj [("host", JStr "b")]])
  | _ => inl (Error "unsupported")
  end.

(** A mapper set in which every mapper throws. *)
Definition every_mapper_throws (mapper : Mapper) (data : string)
  : exn + Converted :=
  inl (Error "unsupported").

(** [{"profiles":[]}] *)
Definition execution_text : string :=
  "{" +:+ quoted "profiles" +:+ ":[]}".

(** * Properties of guessType *)

Section Reduce.

Variable parsedJSON : jsval.

Let count (e : string * list string) : nat := matchCount parsedJSON (snd e).

(** The entry [reduce] settles on splits the array: nothing before it
    counts more, everything after it counts strictly less. *)
Lemma fold_pick_split (l : list (string * list string)) :
  forall a,
  exists pre post,
    a :: l = pre ++ fold_left (pick parsedJSON) l a :: post
    /\ Forall (fun e => count e <= count (fold_left (pick parsedJSON) l a)) pre
    /\ Forall (fun e => count e < count (fold_left (pick parsedJSON) l a)) post.
Proof.
  induction l as [| b l IH]; intros a; simpl.
  - exists [], []. repeat split; constructor.
  - unfold pick at 2 4 6. fold (count a) (count b).
    destruct (Nat.ltb_spec (count b) (count a)) as [Hlt | Hge].
    + destruct (IH a) as (pre & post & Heq & Hpre & Hpost).
      remember (fold_left (pick parsedJSON) l a) as r eqn:Hr.
      destruct pre as [| a' pre]; simpl in Heq; injection Heq as Ha Hl.
      * exists [], (b :: l). subst r. rewrite <- Ha. repeat split.
        -- constructor.
        -- constructor; [exact Hlt |]. rewrite Hl at 1. rewrite Ha. exact Hpost.
      * subst a'. exists (a :: b :: pre), post. repeat split.
        -- simpl. do 2 f_equal. exact Hl.
        -- inversion Hpre as [| ? ? Hra Hrest]; subst.
           constructor; [exact Hra |]. constructor; [lia | exact Hrest].
        -- exact Hpost.
    + destruct (IH b) as (pre & post & Heq & Hpre & Hpost).
      remember (fold_left (pick parsedJSON) l b) as r eqn:Hr.
      exists (a :: pre), post. repeat split.
      * simpl. f_equal. exact Heq.
      * constructor; [| exact Hpre].
        destruct pre as [| b' pre]; simpl in Heq; injection Heq as Hb _.
        -- rewrite <- Hb. exact Hge.
        -- subst b'. inversion Hpre; subst. lia.
      * exact Hpost.
Qed.

Lemma guessTypeOn_split (table : list (string * list string)) (r : string) :
  guessTypeOn table parsedJSON = Some r ->
  exists pre post paths,
    table = pre ++ (r, paths) :: post
    /\ Forall (fun e => count e <= count (r, paths)) pre
    /\ Forall (fun e => count e < count (r, paths)) post.
Proof.
  unfold guessTypeOn, reduce. destruct table as [| a l]; [discriminate |].
  simpl. intros Hr. injection Hr as Hr.
  destruct (fold_pick_split l a) as (pre & post & Heq & Hpre & Hpost).
  destruct (fold_left (pick parsedJSON) l a) as [r' paths] eqn:Hfold.
  simpl in Hr. subst r'. exists pre, post, paths. auto.
Qed.

End Reduce.

Lemma guessType_is_reduce (parsedJSON : jsval) :
  guessTypeOn fileTypeFingerprints parsedJSON = Some (guessType parsedJSON).
Proof. reflexivity. Qed.

Lemma fingerprint_names_distinct : NoDup (map fst fileTypeFingerprints).
Proof. apply NoDup_ListNoDup. repeat constructor; simpl; intuition discriminate. Qed.

(** [guessType] settles on position [p] of the table: no entry counts more
    and every later entry counts strictly less. *)
Lemma guessType_position (parsedJSON : jsval) :
  exists p paths,
    fileTypeFingerprints !! p = Some (guessType parsedJSON, paths)
    /\ (forall k e, fileTypeFingerprints !! k = Some e ->
          matchCount parsedJSON (snd e) <= matchCount parsedJSON paths)
    /\ (forall k e, fileTypeFingerprints !! k = Some e -> p < k ->
          matchCount parsedJSON (snd e) < matchCount parsedJSON paths).
Proof.
  destruct (guessTypeOn_split parsedJSON _ _ (guessType_is_reduce parsedJSON))
    as (pre & post & paths & Heq & Hpre & Hpost).
  exists (length pre), paths. rewrite Heq. split; [| split].
  - rewrite lookup_app_r by lia. replace (length pre - length pre) with 0 by lia.
    reflexivity.
  - intros k e Hk.
    destruct (Nat.lt_trichotomy k (length pre)) as [Hlt | [-> | Hgt]].
    + rewrite lookup_app_l in Hk by exact Hlt.
      rewrite Forall_lookup in Hpre. exact (Hpre _ _ Hk).
    + rewrite lookup_app_r in Hk by lia.
      replace (length pre - length pre) with 0 in Hk by lia.
      injection Hk as <-. simpl. lia.
    + rewrite lookup_app_r in Hk by lia.
      destruct (k - length pre) as [| n] eqn:Hn; [lia |]. simpl in Hk.
      rewrite Forall_lookup in Hpost. specialize (Hpost _ _ Hk). simpl in Hpost. lia.
  - intros k e Hk Hgt.
    rewrite lookup_app_r in Hk by lia.
    destruct (k - length pre) as [| n] eqn:Hn; [lia |]. simpl in Hk.
    rewrite Forall_lookup in Hpost. exact (Hpost _ _ Hk).
Qed.

(** Two positions of the table with the same name are the same position. *)
Lemma fingerprint_position_unique (i j : nat) (e1 e2 : string * list string) :
  fileTypeFingerprints !! i = Some e1 ->
  fileTypeFingerprints !! j = Some e2 ->
  fst e1 = fst e2 -> i = j.
Proof.
  intros Hi Hj Hname.
  apply (NoDup_lookup (map fst fileTypeFingerprints) i j (fst e1)).
  - exact fingerprint_names_distinct.
  - rewrite list_lookup_fmap, Hi. reflexivity.
  - rewrite list_lookup_fmap, Hj, Hname. reflexivity.
Qed.

(** A missing intermediate key ends the walk with [undefined]; nothing is
    thrown (the walk is a total function). *)
Lemma get_missing_intermediate (o : json) (k k' : string) (rest : list string) :
  getProp o k = None ->
  Lodash.baseGet_loop (Some o) (k :: k' :: rest) = None.
Proof. intros H. simpl. destruct o; rewrite ?H; reflexivity. Qed.

Ltac each_entry H :=
  simpl in H;
  repeat (destruct H as [H | H]; [subst |]); try contradiction.

(** C1, as stated, fails: with the count of paths that resolve to a value
    other than [undefined], the format with the greatest count is not
    always the one returned.  In [zeroed_jfrog_document] both jfrog paths
    resolve (to [0] and to the empty string), one nikto path resolves and
    no other does, yet the answer is nikto.  Nor do 3 paths of 3 for one
    format and 1 of 5 for another settle the answer: in
    [sarif_and_zap_document] sarif has 3 of 3 and snyk 1 of 5, and the
    answer is zap, which has 3 of 3 as well. *)
Lemma guessType_not_by_defined_values :
  ~ (forall (parsedJSON : jsval) (e : string * list string),
       In e fileTypeFingerprints ->
       (forall e', In e' fileTypeFingerprints -> e' <> e ->
          resolvedCount parsedJSON (snd e') < resolvedCount parsedJSON (snd e)) ->
       guessType parsedJSON = fst e)
  /\ ~ (forall (parsedJSON : jsval) (A B : string * list string),
          In A fileTypeFingerprints -> In B fileTypeFingerprints ->
          List.length (snd A) = 3 -> List.length (snd B) = 5 ->
          resolvedCount parsedJSON (snd A) = 3 ->
          resolvedCount parsedJSON (snd B) = 1 ->
          guessType parsedJSON = fst A).
Proof.
  split; intros H.
  - specialize (H zeroed_jfrog_document ("jfrog", ["total_count"; "data"])).
    assert (Hguess : guessType zeroed_jfrog_document = "nikto") by reflexivity.
    rewrite Hguess in H. simpl in H.
    assert (Habs : "nikto" = "jfrog"); [| discriminate Habs].
    apply H.
    + auto 10.
    + intros e' Hin Hne. each_entry Hin; vm_compute; lia.
  - specialize (H sarif_and_zap_document
                  ("sarif", ["$schema"; "version"; "runs"])
                  ("snyk", ["projectName"; "policy"; "summary";
                            "vulnerabilities";
                            "vulnerabilities[0].identifiers"])).
    assert (Hguess : guessType sarif_and_zap_document = "zap") by reflexivity.
    rewrite Hguess in H. simpl in H.
    assert (Habs : "zap" = "sarif"); [| discriminate Habs].
    apply H; first [reflexivity | auto 10].
Qed.

(** C1 (amended): guessType returns the format of the Fingerprint Table
    whose fingerprint paths have the greatest count of truthy values in
    the input under the safe nested-path lookup of lodash, which yields
    [undefined] and never an error when an intermediate key is missing.
    The returned format is in the table and no format has more truthy
    paths; a format with strictly more truthy paths than every other one
    is the one returned; in particular a document with 3 truthy paths of
    the 3 of format A, 1 of the 5 of format B and fewer than 3 for every
    other format yields A. *)
Theorem guessType_greatest_truthy_count (parsedJSON : jsval) :
  (exists paths,
      In (guessType parsedJSON, paths) fileTypeFingerprints
      /\ forall e, In e fileTypeFingerprints ->
           matchCount parsedJSON (snd e) <= matchCount parsedJSON paths)
  /\ (forall e, In e fileTypeFingerprints ->
        (forall e', In e' fileTypeFingerprints -> e' <> e ->
           matchCount parsedJSON (snd e') < matchCount parsedJSON (snd e)) ->
        guessType parsedJSON = fst e)
  /\ (forall A B, In A fileTypeFingerprints -> In B fileTypeFingerprints ->
        List.length (snd A) = 3 -> List.length (snd B) = 5 ->
        matchCount parsedJSON (snd A) = 3 ->
        matchCount parsedJSON (snd B) = 1 ->
        (forall e, In e fileTypeFingerprints -> e <> A -> e <> B ->
           matchCount parsedJSON (snd e) < 3) ->
        guessType parsedJSON = fst A)
  /\ (forall o k k' rest, getProp o k = None ->
        Lodash.baseGet_loop (Some o) (k :: k' :: rest) = None).
Proof.
  destruct (guessType_position parsedJSON) as (p & paths & Hp & Hmax & Hlater).
  assert (Hstrict : forall e, In e fileTypeFingerprints ->
            (forall e', In e' fileTypeFingerprints -> e' <> e ->
               matchCount parsedJSON (snd e') < matchCount parsedJSON (snd e)) ->
            guessType parsedJSON = fst e).
  { intros e Hin Hbest.
    destruct (decide ((guessType parsedJSON, paths) = e)) as [<- | Hne];
      [reflexivity |].
    exfalso.
    assert (Hr : In (guessType parsedJSON, paths) fileTypeFingerprints).
    { apply list_elem_of_In. eapply list_elem_of_lookup_2. exact Hp. }
    specialize (Hbest _ Hr Hne). simpl in Hbest.
    apply list_elem_of_In, list_elem_of_lookup_1 in Hin. destruct Hin as [k Hk].
    specialize (Hmax _ _ Hk). lia. }
  split; [| split; [exact Hstrict | split]].
  - exists paths. split.
    + apply list_elem_of_In. eapply list_elem_of_lookup_2. exact Hp.
    + intros e Hin.
      apply list_elem_of_In, list_elem_of_lookup_1 in Hin. destruct Hin as [k Hk].
      exact (Hmax _ _ Hk).
  - intros A B HA HB _ _ HcA HcB Hothers. apply Hstrict; [exact HA |].
    intros e' Hin Hne. rewrite HcA.
    destruct (decide (e' = B)) as [-> | HneB]; [rewrite HcB; lia |].
    apply Hothers; assumption.
  - exact get_missing_intermediate.
Qed.

Lemma guessType_greatest_truthy_count_witness :
  guessType sarif_document = "sarif".
Proof.
  apply (proj1 (proj2 (proj2 (guessType_greatest_truthy_count sarif_document)))
           ("sarif", ["$schema"; "version"; "runs"])
           ("snyk", ["projectName"; "policy"; "summary"; "vulnerabilities";
                     "vulnerabilities[0].identifiers"])).
  - simpl. auto 10.
  - simpl. auto 10.
  - reflexivity.
  - reflexivity.
  - reflexivity.
  - reflexivity.
  - intros e Hin HA HB. each_entry Hin; vm_compute; lia.
Defined.

(** C2, as stated, fails: on [tied_document] fortify and jfrog both count
    one truthy path and every other format counts none, yet the answer is
    not fortify, the earlier of the two. *)
Lemma guessType_tie_not_earliest :
  ~ (forall (parsedJSON : jsval) (i j : nat) (e1 e2 : string * list string),
       fileTypeFingerprints !! i = Some e1 ->
       fileTypeFingerprints !! j = Some e2 ->
       i < j ->
       matchCount parsedJSON (snd e1) = matchCount parsedJSON (snd e2) ->
       (forall k e, fileTypeFingerprints !! k = Some e -> k <> i -> k <> j ->
          matchCount parsedJSON (snd e) < matchCount parsedJSON (snd e2)) ->
       guessType parsedJSON = fst e1).
Proof.
  intros H.
  specialize (H tied_document 0 1 _ _ eq_refl eq_refl).
  assert (Hguess : guessType tied_document = "jfrog") by reflexivity.
  rewrite Hguess in H. simpl in H.
  assert (Habs : "jfrog" = "fortify"); [| discriminate Habs].
  apply H; [lia | reflexivity |].
  intros k e Hk Hi Hj.
  do 6 (destruct k as [| k]; [first [lia | injection Hk as <-; vm_compute; lia] |]).
  discriminate Hk.
Qed.

(** C2 (amended): for every two formats of the Fingerprint Table with
    equal match counts on a parsed JSON object, guessType does not return
    the one declared earlier: the comparison keeps the accumulated entry
    only when it counts strictly more, so the latest entry is retained on
    ties.  When the two count more than every other format, the one
    declared later is returned. *)
Theorem guessType_tie_latest (parsedJSON : jsval) (i j : nat)
  (e1 e2 : string * list string) :
  fileTypeFingerprints !! i = Some e1 ->
  fileTypeFingerprints !! j = Some e2 ->
  i < j ->
  matchCount parsedJSON (snd e1) = matchCount parsedJSON (snd e2) ->
  guessType parsedJSON <> fst e1
  /\ ((forall k e, fileTypeFingerprints !! k = Some e -> k <> i -> k <> j ->
         matchCount parsedJSON (snd e) < matchCount parsedJSON (snd e2)) ->
      guessType parsedJSON = fst e2).
Proof.
  intros Hi Hj Hij Htie.
  destruct (guessType_position parsedJSON) as (p & paths & Hp & Hmax & Hlater).
  assert (Hnot : p <> i).
  { intros ->. specialize (Hlater _ _ Hj Hij).
    rewrite Hi in Hp. injection Hp as Hp. rewrite Hp in Htie. simpl in Htie. lia. }
  split.
  - intros Hname. apply Hnot.
    apply (fingerprint_position_unique p i _ _ Hp Hi). exact Hname.
  - intros Hothers.
    destruct (decide (p = j)) as [-> | Hpj].
    + rewrite Hj in Hp. injection Hp as ->. reflexivity.
    + specialize (Hothers _ _ Hp Hnot Hpj). simpl in Hothers.
      specialize (Hmax _ _ Hj). lia.
Qed.

Lemma guessType_tie_latest_witness :
  guessType tied_document <> "fortify" /\ guessType tied_document = "jfrog".
Proof.
  destruct (guessType_tie_latest tied_document 0 1
              ("fortify", ["FVDL"; "FVDL.EngineData.EngineVersion"; "FVDL.UUID"])
              ("jfrog", ["total_count"; "data"])
              eq_refl eq_refl ltac:(lia) eq_refl) as [Hne Heq].
  split; [exact Hne |].
  apply Heq. intros k e Hk Hk0 Hk1.
  do 6 (destruct k as [| k]; [first [lia | injection Hk as <-; vm_compute; lia] |]).
  discriminate Hk.
Defined.

(** * Properties of the actions *)

Section Dispatch.

Variable JSON_parse : string -> option json.
Variable toHdf : Mapper -> string -> exn + Converted.

Lemma isHDF_run (data : string) (st : state) :
  isHDF JSON_parse data st =
  (Returned (match JSON_parse data with
             | Some parsed => normalizedShape parsed
             | None => false
             end), st).
Proof.
  unfold isHDF, tryCatch, bind, parseJSON, readMember, normalizedShape.
  destruct (JSON_parse data) as [parsed |]; [| reflexivity].
  destruct parsed; try reflexivity.
  cbn. unfold ret.
  destruct (isArray (assoc "profiles" fields)); [reflexivity |].
  destruct (truthy (assoc "controls" fields)); reflexivity.
Qed.

Lemma convertToHdf_run (file : File) (data : string) (st : state) :
  convertToHdf JSON_parse toHdf file data st =
  match JSON_parse data with
  | None => fallback toHdf file data st
  | Some parsed =>
      match jsonChoice (guessType (Some parsed)) with
      | None => (Returned None, notified no_fingerprints st)
      | Some mapper =>
          match toHdf mapper data with
          | inr hdf => (Returned (Some hdf), st)
          | inl _ => fallback toHdf file data st
          end
      end
  end.
Proof.
  unfold convertToHdf, tryCatch, bind, jsonDetection, heuristicDetection,
    fallback, afterMapper, parseJSON, bind, lift, ret, throw, notified.
  destruct (JSON_parse data) as [parsed |]; simpl.
  - destruct (jsonChoice (guessType (Some parsed))) as [mapper |]; simpl;
      [| reflexivity].
    destruct (toHdf mapper data) as [e | hdf]; simpl; [| reflexivity].
    destruct (heuristicChoice (name file) data) as [mapper' |]; simpl;
      [| reflexivity].
    destruct (toHdf mapper' data); reflexivity.
  - destruct (heuristicChoice (name file) data) as [mapper' |]; simpl;
      [| reflexivity].
    destruct (toHdf mapper' data); reflexivity.
Qed.

(** A mapper picked in the [catch] block is outside every handler: its
    error is the error of the dispatcher. *)
Lemma heuristic_mapper_failure_propagates (file : File) (data : string)
  (mapper : Mapper) (e : exn) (st : state) :
  JSON_parse data = None ->
  heuristicChoice (name file) data = Some mapper ->
  toHdf mapper data = inl e ->
  convertToHdf JSON_parse toHdf file data st = (Thrown e, st).
Proof.
  intros Hparse Hchoice Hfail. rewrite convertToHdf_run, Hparse.
  unfold fallback. rewrite Hchoice, Hfail. reflexivity.
Qed.

(** C3 (amended): isHDF never throws.  If the string fails to parse as
    JSON it returns false; if it parses, it returns true exactly when
    the parsed value has an array-typed profiles property or its
    controls property and its sha256 property both hold truthy values;
    in particular a parsed document whose controls and sha256 are
    truthy gives true regardless of profiles.  The state is left as it
    was. *)
Theorem isHDF_truthy_shape (data : string) (st : state) :
  isHDF JSON_parse data st =
  (Returned
     (match JSON_parse data with
      | Some parsed =>
          isArray (getProp parsed "profiles")
          || (truthy (getProp parsed "controls")
              && truthy (getProp parsed "sha256"))
      | None => false
      end), st)
  /\ (forall parsed,
        JSON_parse data = Some parsed ->
        truthy (getProp parsed "controls") = true ->
        truthy (getProp parsed "sha256") = true ->
        isHDF JSON_parse data st = (Returned true, st)).
Proof.
  split; [apply isHDF_run |].
  intros parsed Hparse Hc Hs. rewrite isHDF_run, Hparse.
  unfold normalizedShape. rewrite Hc, Hs, orb_true_r. reflexivity.
Qed.

(** C7, on the code: when the text parses, the guessed type has a
    mapper and that mapper throws, the dispatcher does not throw that
    error.  The handler written for the JSON syntax error takes it, and
    the heuristic tests on the file name and the text decide what
    happens next. *)
Theorem json_mapper_failure_is_caught (file : File) (data : string)
  (parsed : json) (mapper : Mapper) (e : exn) (st : state) :
  JSON_parse data = Some parsed ->
  jsonChoice (guessType (Some parsed)) = Some mapper ->
  toHdf mapper data = inl e ->
  convertToHdf JSON_parse toHdf file data st = fallback toHdf file data st.
Proof.
  intros Hparse Hchoice Hfail.
  rewrite convertToHdf_run, Hparse, Hchoice, Hfail. reflexivity.
Qed.

(** C10: when the text parses as JSON and the guessed type is fortify,
    no mapper runs: the dispatcher reports the failure message once and
    returns no execution.  fortify is a name of the Fingerprint Table,
    and the [try] block has a mapper for the guesses jfrog, zap, nikto,
    sarif and snyk only. *)
Theorem fortify_guess_not_dispatched (file : File) (data : string)
  (parsed : json) (st : state) :
  JSON_parse data = Some parsed ->
  guessType (Some parsed) = "fortify" ->
  convertToHdf JSON_parse toHdf file data st
  = (Returned None, notified no_fingerprints st)
  /\ snackbar (notified no_fingerprints st) = snackbar st ++ [no_fingerprints]
  /\ In "fortify" (map fst fileTypeFingerprints)
  /\ (forall typeGuess,
        In typeGuess (map fst fileTypeFingerprints) ->
        (jsonChoice typeGuess = None <-> typeGuess = "fortify"))
  /\ (forall typeGuess mapper,
        jsonChoice typeGuess = Some mapper ->
        In typeGuess ["jfrog"; "zap"; "nikto"; "sarif"; "snyk"]).
Proof.
  intros Hparse Hguess. split; [| split; [| split; [| split]]].
  - rewrite convertToHdf_run, Hparse, Hguess. reflexivity.
  - reflexivity.
  - simpl. auto.
  - intros typeGuess Hin. simpl in Hin.
    repeat (destruct Hin as [Hin | Hin];
            [subst; split; intros Heq; first [reflexivity | discriminate] |]).
    contradiction.
  - intros typeGuess mapper. unfold jsonChoice.
    repeat match goal with
           | |- context [String.eqb typeGuess ?s] =>
               destruct (String.eqb_spec typeGuess s) as [-> | _];
               [intros _; simpl; auto 10 |]
           end.
    intros H. discriminate H.
Qed.

End Dispatch.

(** What the two tests without a comparison amount to, once the earlier
    branches are out of the way. *)
Lemma heuristicChoice_dbprotect (fileName data : string) :
  endsWith (toLowerCase fileName) ".nessus" = false ->
  contains data xccdf_schema = false ->
  contains (toLowerCase fileName) "xccdf" = false ->
  contains data "issues burpVersion" = false ->
  contains data "scoutsuite_results" = false ->
  (heuristicChoice fileName data = Some DBProtectMapper
   <-> contains data "Policy" = true
       /\ contains data "Job Name" = true
       /\ contains data "Check ID" = true
       /\ indexOf data "Result Status" <> 0%Z).
Proof.
  unfold heuristicChoice, contains, truthy_index.
  intros -> -> -> -> ->. simpl.
  destruct (negb (indexOf data "Policy" =? -1)%Z);
    destruct (negb (indexOf data "Job Name" =? -1)%Z);
    destruct (negb (indexOf data "Check ID" =? -1)%Z);
    destruct (Z.eqb_spec (indexOf data "Result Status") 0) as [Hz | Hz];
    simpl; try rewrite Hz;
    destruct (negb (indexOf data "netsparker-enterprise" =? 0)%Z);
    split; try discriminate; try tauto; try (intros (? & ? & ? & ?); congruence).
Qed.

Lemma heuristicChoice_netsparker (fileName data : string) :
  endsWith (toLowerCase fileName) ".nessus" = false ->
  contains data xccdf_schema = false ->
  contains (toLowerCase fileName) "xccdf" = false ->
  contains data "issues burpVersion" = false ->
  contains data "scoutsuite_results" = false ->
  contains data "Policy" = false ->
  (heuristicChoice fileName data = Some NetsparkerMapper
   <-> indexOf data "netsparker-enterprise" <> 0%Z).
Proof.
  unfold heuristicChoice, contains, truthy_index.
  intros -> -> -> -> -> ->. simpl.
  destruct (Z.eqb_spec (indexOf data "netsparker-enterprise") 0) as [Hz | Hz];
    simpl; split; try discriminate; try tauto; congruence.
Qed.

(** C3, as stated, fails: a parsed document that has a controls property
    and a sha256 property is not always accepted.  For the text
    [empty_sha256_text] the parsed object has both, yet the answer is
    false, because the sha256 it holds is the empty string. *)
Lemma isHDF_not_by_presence :
  ~ (forall (JSON_parse : string -> option json) (data : string)
       (parsed : json) (st : state),
       JSON_parse data = Some parsed ->
       hasProperty parsed "controls" = true ->
       hasProperty parsed "sha256" = true ->
       isHDF JSON_parse data st = (Returned true, st)).
Proof.
  intros H.
  specialize (H JsonText.parse empty_sha256_text
                (JObj [("controls", JArr []); ("sha256", JStr EmptyString)])
                empty_state eq_refl eq_refl eq_refl).
  rewrite isHDF_run in H. vm_compute in H. discriminate H.
Qed.

Lemma isHDF_truthy_shape_witness :
  isHDF JsonText.parse profile_text empty_state = (Returned true, empty_state).
Proof.
  apply (proj2 (isHDF_truthy_shape JsonText.parse profile_text empty_state)
           (JObj [("controls", JArr [JNum 1]); ("sha256", JStr "ab")]));
    reflexivity.
Defined.

(** C4, on the code: the DBProtect test is not the conjunction of four
    containment checks.  [three_marker_text] is not JSON, matches no
    earlier branch and has no Result Status in it, and it is handed to
    DBProtectMapper; [status_first_text] contains all four markers, with
    Result Status at position 0, and it is handed to NetsparkerMapper
    instead. *)
Theorem dbprotect_test_ignores_result_status :
  JsonText.parse three_marker_text = None
  /\ contains three_marker_text "Result Status" = false
  /\ (forall toHdf st,
        convertToHdf JsonText.parse toHdf
          {| name := "export.csv"; contents := three_marker_text |}
          three_marker_text st
        = afterMapper (toHdf DBProtectMapper three_marker_text) st)
  /\ JsonText.parse status_first_text = None
  /\ contains status_first_text "Policy"
     && contains status_first_text "Job Name"
     && contains status_first_text "Check ID"
     && contains status_first_text "Result Status" = true
  /\ (forall toHdf st,
        convertToHdf JsonText.parse toHdf
          {| name := "export.csv"; contents := status_first_text |}
          status_first_text st
        = afterMapper (toHdf NetsparkerMapper status_first_text) st).
Proof.
  split; [reflexivity |]. split; [reflexivity |].
  split; [intros toHdf st; rewrite convertToHdf_run; reflexivity |].
  split; [reflexivity |]. split; [reflexivity |].
  intros toHdf st. rewrite convertToHdf_run. reflexivity.
Qed.

(** C5, on the code: the Netsparker test holds whenever the index of the
    marker is not 0, and the index of an absent marker is -1.
    [plain_text] is not JSON, matches no earlier branch and does not
    contain the marker, and it is handed to NetsparkerMapper;
    [netsparker_first_text], which starts with the marker, is the case
    that is reported as a failure. *)
Theorem netsparker_test_holds_without_marker :
  JsonText.parse plain_text = None
  /\ contains plain_text "netsparker-enterprise" = false
  /\ (forall toHdf st,
        convertToHdf JsonText.parse toHdf
          {| name := "notes.txt"; contents := plain_text |} plain_text st
        = afterMapper (toHdf NetsparkerMapper plain_text) st)
  /\ JsonText.parse netsparker_first_text = None
  /\ indexOf netsparker_first_text "netsparker-enterprise" = 0%Z
  /\ (forall toHdf st,
        convertToHdf JsonText.parse toHdf
          {| name := "notes.txt"; contents := netsparker_first_text |}
          netsparker_first_text st
        = (Returned None, notified no_fingerprints st)).
Proof.
  split; [reflexivity |]. split; [reflexivity |].
  split; [intros toHdf st; rewrite convertToHdf_run; reflexivity |].
  split; [reflexivity |]. split; [reflexivity |].
  intros toHdf st. rewrite convertToHdf_run. reflexivity.
Qed.

Lemma json_mapper_failure_is_caught_witness :
  convertToHdf JsonText.parse zap_throws
    {| name := "scan.json"; contents := "{}" |} "{}" empty_state
  = (Returned (Some (One (JObj []))), empty_state).
Proof.
  rewrite (json_mapper_failure_is_caught JsonText.parse zap_throws
             {| name := "scan.json"; contents := "{}" |} "{}"
             (JObj []) ZapMapper (Error "no site") empty_state
             eq_refl eq_refl eq_refl).
  reflexivity.
Defined.

Lemma fortify_guess_not_dispatched_witness :
  convertToHdf JsonText.parse zap_throws
    {| name := "audit.json"; contents := fortify_text |} fortify_text empty_state
  = (Returned None, notified no_fingerprints empty_state).
Proof.
  apply (proj1 (fortify_guess_not_dispatched JsonText.parse zap_throws
                  {| name := "audit.json"; contents := fortify_text |}
                  fortify_text (JObj [("FVDL", JObj [("UUID", JStr "u")])])
                  empty_state eq_refl eq_refl)).
Defined.

(** * Properties of the ingestion *)

Lemma get_set_prop (k : string) (v : value) (ps : list (string * value)) :
  get_prop k (set_prop k v ps) = v.
Proof.
  induction ps as [| [k' v'] ps IH]; simpl.
  - rewrite String.eqb_refl. reflexivity.
  - destruct (String.eqb k k') eqn:Hk; simpl; rewrite Hk; [reflexivity | exact IH].
Qed.

Lemma frozen_sealed (st : state) (l : nat) (o : object) :
  heap st !! l = Some o -> frozen o = true -> sealed st l.
Proof.
  intros Hl Hf. unfold sealed, isFrozen, assign, deleteProp.
  rewrite Hl, Hf. auto.
Qed.

Ltac run_ingest :=
  unfold bind, lift, new_uuid, newObject, assign, freeze, addExecution,
    addProfile, toggle_evaluation, toggle_profile, ret, throw, with_heap;
  simpl;
  rewrite !lookup_insert_eq; simpl;
  rewrite lookup_insert_ne by lia; rewrite lookup_insert_ne by lia;
  rewrite lookup_insert_eq; simpl;
  rewrite lookup_insert_ne by lia; rewrite !lookup_insert_eq; simpl.

Ltac frozen_before_registered :=
  unfold frozenBeforeRegistered; cbv zeta; simpl;
  split; [rewrite <- !app_assoc; reflexivity |];
  split; [rewrite lookup_insert_eq; reflexivity |];
  split;
    [unfold readProp; simpl; rewrite lookup_insert_ne by lia;
     rewrite lookup_insert_eq; reflexivity |];
  split; [eapply frozen_sealed; [simpl; apply lookup_insert_eq | reflexivity] |];
  split;
    [unfold isFrozen; simpl; rewrite lookup_insert_ne by lia;
     rewrite lookup_insert_eq; reflexivity |];
  intros replacement;
  unfold bind, newObject, assign, with_heap, readProp; simpl;
  rewrite lookup_insert_ne by lia; rewrite lookup_insert_ne by lia;
  rewrite lookup_insert_eq; simpl;
  eexists; split; [reflexivity |]; simpl;
  split;
    [rewrite ?lookup_insert_eq; simpl;
     first [reflexivity | apply get_set_prop] |];
  split; [lia |];
  rewrite lookup_insert_ne by lia; rewrite lookup_insert_ne by lia;
  reflexivity.

Section Ingestion.

Variable JSON_parse : string -> option json.
Variable toHdf : Mapper -> string -> exn + Converted.
Variable convertFile : string -> ConversionResult.
Variable contextualizeEvaluation : json -> exn + list (string * value).
Variable contextualizeProfile : json -> exn + list (string * value).
Variable uuid : nat -> FileID.

(** C9 (amended): in every successful ingestion, by loadExecJson and by
    either branch of loadText, the normalized content object, the one
    built from what [contextualizeEvaluation] or [contextualizeProfile]
    returned for the record, is frozen before its wrapper is registered:
    the history of the run is creation, linking, freezing, and only then
    the call to the data store and to the selection store.  Once
    registered, the own properties of the content object are immutable:
    every assignment to it and every removal of one of its properties
    throws and changes nothing.  The freeze is shallow, the wrapper the
    content points back to is not frozen, and the content of a registered
    file is updated by producing a new object and replacing the
    reference the wrapper holds. *)
Theorem content_frozen_before_registration :
  (forall options st content,
      contextualizeEvaluation (el_data options) = inr content ->
      exists st',
        loadExecJson contextualizeEvaluation uuid options st
        = (Returned (uuid (minted st)), st')
        /\ executionFiles st' = executionFiles st ++ [allocated st]
        /\ frozenBeforeRegistered "evaluation" AddedExecution
             (ToggledEvaluation (uuid (minted st))) content st st')
  /\ (forall options st execJson content,
        v1_0_ExecJson (convertFile (tl_text options)) = Some execJson ->
        contextualizeEvaluation execJson = inr content ->
        exists st',
          loadText convertFile contextualizeEvaluation contextualizeProfile
            uuid options st
          = (Returned (uuid (minted st)), st')
          /\ executionFiles st' = executionFiles st ++ [allocated st]
          /\ frozenBeforeRegistered "evaluation" AddedExecution
               (ToggledEvaluation (uuid (minted st))) content st st')
  /\ (forall options st profileJson content,
        v1_0_ExecJson (convertFile (tl_text options)) = None ->
        v1_0_ProfileJson (convertFile (tl_text options)) = Some profileJson ->
        contextualizeProfile profileJson = inr content ->
        exists st',
          loadText convertFile contextualizeEvaluation contextualizeProfile
            uuid options st
          = (Returned (uuid (minted st)), st')
          /\ profileFiles st' = profileFiles st ++ [allocated st]
          /\ frozenBeforeRegistered "profile" AddedProfile
               (ToggledProfile (uuid (minted st))) content st st').
Proof.
  split; [| split].
  - intros options st content Hctx. unfold loadExecJson.
    unfold bind, lift, new_uuid, newObject. simpl. rewrite Hctx. run_ingest.
    eexists. split; [reflexivity |]. split; [reflexivity |].
    frozen_before_registered.
  - intros options st execJson content Hexec Hctx. unfold loadText.
    unfold bind at 1. unfold new_uuid at 1. cbv beta iota.
    rewrite Hexec.
    unfold bind, lift, newObject. simpl. rewrite Hctx. run_ingest.
    eexists. split; [reflexivity |]. split; [reflexivity |].
    frozen_before_registered.
  - intros options st profileJson content Hexec Hprofile Hctx. unfold loadText.
    unfold bind at 1. unfold new_uuid at 1. cbv beta iota.
    rewrite Hexec, Hprofile.
    unfold bind, lift, newObject. simpl. rewrite Hctx. run_ingest.
    eexists. split; [reflexivity |]. split; [reflexivity |].
    frozen_before_registered.
Qed.

(** C8: when the multi-version parser recognizes the text as neither an
    execution nor a profile, loadText throws the user-facing error.  On
    that path the heap, the registered execution and profile files, the
    selected identifiers and the notifications are what they were; the
    only traces are the identifier that was drawn and the errors
    written to the console. *)
Theorem loadText_unrecognized_throws (options : TextLoadOptions)
  (st : state) :
  v1_0_ExecJson (convertFile (tl_text options)) = None ->
  v1_0_ProfileJson (convertFile (tl_text options)) = None ->
  exists st',
    loadText convertFile contextualizeEvaluation contextualizeProfile uuid
      options st
    = (Thrown (Error could_not_parse), st')
    /\ heap st' = heap st
    /\ executionFiles st' = executionFiles st
    /\ profileFiles st' = profileFiles st
    /\ selectedEvaluationIds st' = selectedEvaluationIds st
    /\ selectedProfileIds st' = selectedProfileIds st
    /\ snackbar st' = snackbar st
    /\ console st' = console st ++ [errors (convertFile (tl_text options))].
Proof.
  intros Hexec Hprofile. unfold loadText.
  unfold bind at 1. unfold new_uuid at 1. cbv beta iota.
  rewrite Hexec, Hprofile.
  unfold bind, console_error, throw. simpl.
  eexists. split; [reflexivity |]. simpl. repeat split; reflexivity.
Qed.


End Ingestion.

Lemma content_frozen_before_registration_witness :
  exists st',
    loadText recognizes_profile sample_contextualize sample_contextualize
      sample_uuid sample_text_options empty_state
    = (Returned "file-0", st')
    /\ profileFiles st' = [0]
    /\ frozenBeforeRegistered "profile" AddedProfile (ToggledProfile "file-0")
         [("data", VJson (JObj [("controls", JArr [])]))] empty_state st'.
Proof.
  apply (proj2 (proj2 (content_frozen_before_registration recognizes_profile
                         sample_contextualize sample_contextualize sample_uuid))
           sample_text_options empty_state (JObj [("controls", JArr [])])
           [("data", VJson (JObj [("controls", JArr [])]))]);
    reflexivity.
Defined.

(** C9, as stated, fails: after a successful loadExecJson not every
    attempted mutation of the registered record fails.  The content
    object refers, through from_file, to its wrapper, which is the object
    handed to the data store and is never frozen: assigning a new
    filename to it succeeds. *)
Lemma registered_record_not_immutable :
  ~ (forall (contextualizeEvaluation : json -> exn + list (string * value))
       (uuid : nat -> FileID) (options : ExecJSONLoadOptions)
       (st st' : state) (id : FileID),
       loadExecJson contextualizeEvaluation uuid options st
       = (Returned id, st') ->
       immutableRecord st' (S (allocated st))).
Proof.
  intros H.
  assert (Hrun : loadExecJson sample_contextualize sample_uuid
                   sample_exec_options empty_state
                 = (Returned "file-0",
                    snd (loadExecJson sample_contextualize sample_uuid
                           sample_exec_options empty_state)))
    by reflexivity.
  specialize (H _ _ _ _ _ _ Hrun 0 "filename" (VString "renamed")).
  assert (Hreach : 0 = S (allocated empty_state)
                   \/ exists k',
                        readProp
                          (snd (loadExecJson sample_contextualize sample_uuid
                                  sample_exec_options empty_state))
                          (S (allocated empty_state)) k' = VRef 0).
  { right. exists "from_file". reflexivity. }
  specialize (H Hreach). vm_compute in H. discriminate H.
Qed.

Lemma loadText_unrecognized_throws_witness :
  exists st',
    loadText recognizes_nothing sample_contextualize sample_contextualize
      sample_uuid sample_text_options empty_state
    = (Thrown (Error could_not_parse), st')
    /\ heap st' = heap empty_state
    /\ executionFiles st' = []
    /\ profileFiles st' = []
    /\ selectedEvaluationIds st' = []
    /\ selectedProfileIds st' = []
    /\ snackbar st' = []
    /\ console st' = [["not an execution"; "not a profile"]].
Proof.
  apply (loadText_unrecognized_throws recognizes_nothing sample_contextualize
           sample_contextualize sample_uuid sample_text_options empty_state);
    reflexivity.
Defined.


(** * Worked examples *)

(** The end-to-end example of the specification: a Snyk report is guessed
    as snyk, goes through SnykResults, and one identifier is minted,
    registered and selected. *)
Example snyk_end_to_end :
  JsonText.parse snyk_text
  = Some (JObj [("vulnerabilities", JArr []); ("projectName", JStr "x");
                ("policy", JStr "y"); ("summary", JStr "z")])
  /\ option_map (fun parsed => guessType (Some parsed)) (JsonText.parse snyk_text)
     = Some "snyk"
  /\ exists st',
       loadFile JsonText.parse zap_throws recognizes_nothing
         sample_contextualize sample_contextualize sample_uuid
         {| name := "snyk.json"; contents := snyk_text |} empty_state
       = (Returned (OneID "file-0"), st')
       /\ executionFiles st' = [0]
       /\ selectedEvaluationIds st' = ["file-0"]
       /\ snackbar st' = [].
Proof.
  split; [reflexivity |]. split; [reflexivity |].
  eexists. split; [vm_compute; reflexivity |]. repeat split; reflexivity.
Qed.

(** A file named scan.nessus whose content is not JSON goes to
    NessusResults whatever the text holds. *)
Example nessus_by_extension (data : string) :
  heuristicChoice "scan.nessus" data = Some NessusResults.
Proof. reflexivity. Qed.

(** The guess on a document that matches nothing is the last entry of the
    table. *)
Example guess_on_empty_object : guessType (Some (JObj [])) = "zap".
Proof. reflexivity. Qed.

(** Loading the same execution twice mints two identifiers and registers
    two wrappers. *)
Example same_execution_twice :
  exists st',
    (let* first := loadExecJson sample_contextualize sample_uuid
                     sample_exec_options in
     let* second := loadExecJson sample_contextualize sample_uuid
                      sample_exec_options in
     ret (first, second)) empty_state
    = (Returned ("file-0", "file-1"), st')
    /\ executionFiles st' = [0; 2]
    /\ selectedEvaluationIds st' = ["file-0"; "file-1"]
    /\ isFrozen st' 1 = true /\ isFrozen st' 3 = true
    /\ isFrozen st' 0 = false.
Proof.
  eexists. split; [vm_compute; reflexivity |]. repeat split; reflexivity.
Qed.

(** A text that [convertFile] recognizes as an execution is registered
    among the executions and selected. *)
Example recognized_execution_text :
  exists st',
    loadText recognizes_execution sample_contextualize sample_contextualize
      sample_uuid sample_text_options empty_state
    = (Returned "file-0", st')
    /\ executionFiles st' = [0] /\ profileFiles st' = []
    /\ selectedEvaluationIds st' = ["file-0"]
    /\ readProp st' 1 "from_file" = VRef 0.
Proof.
  eexists. split; [vm_compute; reflexivity |]. repeat split; reflexivity.
Qed.

(** * Further properties of guessType and of the dispatch *)

Lemma guessType_at (parsedJSON : jsval) (p : nat)
  (e : string * list string) :
  fileTypeFingerprints !! p = Some e ->
  (guessType parsedJSON = fst e
   <-> (forall k e', fileTypeFingerprints !! k = Some e' -> k < p ->
          matchCount parsedJSON (snd e') <= matchCount parsedJSON (snd e))
       /\ (forall k e', fileTypeFingerprints !! k = Some e' -> p < k ->
             matchCount parsedJSON (snd e') < matchCount parsedJSON (snd e))).
Proof.
  intros Hp.
  destruct (guessType_position parsedJSON) as (q & paths & Hq & Hmax & Hlater).
  split.
  - intros Hname.
    assert (q = p) as ->
      by (apply (fingerprint_position_unique q p _ _ Hq Hp); exact Hname).
    rewrite Hp in Hq. injection Hq as Hq. rewrite Hq. simpl. split.
    + intros k e' Hk _. exact (Hmax _ _ Hk).
    + intros k e' Hk Hlt. exact (Hlater _ _ Hk Hlt).
  - intros [Hearlier Hafter].
    destruct (Nat.lt_trichotomy q p) as [Hlt | [-> | Hgt]].
    + specialize (Hearlier _ _ Hq Hlt). specialize (Hlater _ _ Hp Hlt).
      simpl in Hearlier. lia.
    + rewrite Hp in Hq. injection Hq as ->. reflexivity.
    + specialize (Hafter _ _ Hq Hgt). specialize (Hmax _ _ Hp).
      simpl in Hafter. lia.
Qed.

(** X1: guessType returns the entry at a given position exactly when no
    earlier entry counts more and every later entry counts strictly
    less. *)
Theorem guessType_characterized (parsedJSON : jsval) (p : nat)
  (e : string * list string) :
  fileTypeFingerprints !! p = Some e ->
  (guessType parsedJSON = fst e
   <-> (forall k e', fileTypeFingerprints !! k = Some e' -> k < p ->
          matchCount parsedJSON (snd e') <= matchCount parsedJSON (snd e))
       /\ (forall k e', fileTypeFingerprints !! k = Some e' -> p < k ->
             matchCount parsedJSON (snd e') < matchCount parsedJSON (snd e))).
Proof. exact (guessType_at parsedJSON p e). Qed.

Lemma guessType_characterized_witness :
  guessType tied_document = "jfrog"
  <-> (forall k e', fileTypeFingerprints !! k = Some e' -> k < 1 ->
         matchCount tied_document (snd e') <= 1)
      /\ (forall k e', fileTypeFingerprints !! k = Some e' -> 1 < k ->
            matchCount tied_document (snd e') < 1).
Proof.
  apply (guessType_characterized tied_document 1
           ("jfrog", ["total_count"; "data"]) eq_refl).
Defined.

(** A parsed value that is not an object has no truthy fingerprint, so
    the guess is the last entry of the table. *)
Lemma guessType_non_object (parsed : json) :
  isObject parsed = false -> guessType (Some parsed) = "zap".
Proof. destruct parsed; intros H; try discriminate H; reflexivity. Qed.

Lemma normalizedShape_non_object (parsed : json) :
  isObject parsed = false -> normalizedShape parsed = false.
Proof. destruct parsed; intros H; try discriminate H; reflexivity. Qed.

Lemma toLowerCase_idempotent (s : string) :
  toLowerCase (toLowerCase s) = toLowerCase s.
Proof.
  induction s as [| c s IH]; [reflexivity |]. simpl. rewrite IH. f_equal.
  destruct c as [[] [] [] [] [] [] [] []]; reflexivity.
Qed.

Lemma toLowerCase_append (s t : string) :
  toLowerCase (s +:+ t) = toLowerCase s +:+ toLowerCase t.
Proof. induction s as [| c s IH]; simpl; [reflexivity | rewrite IH; reflexivity]. Qed.

Lemma toLowerCase_length (s : string) :
  String.length (toLowerCase s) = String.length s.
Proof. induction s as [| c s IH]; simpl; [reflexivity | rewrite IH; reflexivity]. Qed.

Lemma substring_all (s : string) : substring 0 (String.length s) s = s.
Proof. induction s as [| c s IH]; simpl; [reflexivity | rewrite IH; reflexivity]. Qed.

Lemma substring_append (s t : string) :
  substring (String.length s) (String.length t) (s +:+ t) = t.
Proof. induction s as [| c s IH]; simpl; [apply substring_all | exact IH]. Qed.

Lemma length_append (s t : string) :
  String.length (s +:+ t) = String.length s + String.length t.
Proof. induction s as [| c s IH]; simpl; [reflexivity | rewrite IH; reflexivity]. Qed.

Lemma endsWith_append (s t : string) : endsWith (s +:+ t) t = true.
Proof.
  unfold endsWith. rewrite length_append.
  replace (String.length s + String.length t - String.length t)
    with (String.length s) by lia.
  rewrite substring_append, String.eqb_refl.
  destruct (Nat.leb_spec (String.length t) (String.length s + String.length t));
    [reflexivity | lia].
Qed.

(** X7: The fallback looks at the file name through its lower-cased form
    only: a name routes like its lower-cased form. *)
Theorem heuristicChoice_ignores_case (fileName data : string) :
  heuristicChoice (toLowerCase fileName) data = heuristicChoice fileName data.
Proof. unfold heuristicChoice. rewrite toLowerCase_idempotent. reflexivity. Qed.

(** When no test of the fallback holds, the text begins with the
    Netsparker marker: a text that is not JSON reaches the failure message
    in that case only. *)
Lemma heuristicChoice_none_prefix (fileName data : string) :
  heuristicChoice fileName data = None ->
  substring 0 21 data = "netsparker-enterprise".
Proof.
  unfold heuristicChoice.
  repeat match goal with
         | |- context [if ?b then Some ?m else _] =>
             destruct b eqn:?; [discriminate |]
         end.
  intros _.
  match goal with
  | H : truthy_index (indexOf data "netsparker-enterprise") = false |- _ =>
      unfold truthy_index, indexOf in H;
      destruct (index 0 "netsparker-enterprise" data) as [n |] eqn:Hidx;
      [| discriminate H];
      apply negb_false_iff, Z.eqb_eq in H;
      assert (n = 0) as -> by lia;
      exact (index_correct1 _ _ _ _ Hidx)
  end.
Qed.

Lemma guessType_in_table (parsedJSON : jsval) :
  In (guessType parsedJSON) (map fst fileTypeFingerprints).
Proof.
  destruct (guessType_position parsedJSON) as (p & paths & Hp & _ & _).
  apply list_elem_of_In.
  change (guessType parsedJSON) with (fst (guessType parsedJSON, paths)).
  apply list_elem_of_fmap_2. eapply list_elem_of_lookup_2. exact Hp.
Qed.

Lemma jsonChoice_none_fortify (parsedJSON : jsval) :
  jsonChoice (guessType parsedJSON) = None <-> guessType parsedJSON = "fortify".
Proof.
  split.
  - intros Hnone. pose proof (guessType_in_table parsedJSON) as Hin.
    simpl in Hin.
    repeat (destruct Hin as [Hin | Hin];
            [rewrite <- Hin in Hnone; first [symmetry; exact Hin | discriminate Hnone] |]).
    contradiction.
  - intros ->. reflexivity.
Qed.

Section DispatchFurther.

Variable JSON_parse : string -> option json.
Variable toHdf : Mapper -> string -> exn + Converted.

(** X2: A JSON text whose value is not an object (null, a number, a string,
    a boolean or an array) is never taken for HDF, and the dispatcher
    hands it to ZapMapper; if ZapMapper throws, the fallback decides. *)
Theorem non_object_json_goes_to_zap (file : File) (data : string)
  (parsed : json) (st : state) :
  JSON_parse data = Some parsed ->
  isObject parsed = false ->
  isHDF JSON_parse data st = (Returned false, st)
  /\ convertToHdf JSON_parse toHdf file data st
     = match toHdf ZapMapper data with
       | inr hdf => (Returned (Some hdf), st)
       | inl _ => fallback toHdf file data st
       end.
Proof.
  intros Hparse Hobj. split.
  - rewrite isHDF_run, Hparse, (normalizedShape_non_object _ Hobj). reflexivity.
  - rewrite convertToHdf_run, Hparse, (guessType_non_object _ Hobj). reflexivity.
Qed.

(** X3: For a text that parses, the [try] block ends without a mapper
    exactly when fortify counts strictly more truthy paths than every
    other format; the failure is then reported and nothing is returned. *)
Theorem json_rejected_iff_fortify_leads (file : File) (data : string)
  (parsed : json) (st : state) :
  JSON_parse data = Some parsed ->
  ((forall k e, fileTypeFingerprints !! k = Some e -> 0 < k ->
      matchCount (Some parsed) (snd e)
      < matchCount (Some parsed)
          ["FVDL"; "FVDL.EngineData.EngineVersion"; "FVDL.UUID"])
   <-> jsonChoice (guessType (Some parsed)) = None)
  /\ (jsonChoice (guessType (Some parsed)) = None ->
      convertToHdf JSON_parse toHdf file data st
      = (Returned None, notified no_fingerprints st)).
Proof.
  intros Hparse. split.
  - rewrite jsonChoice_none_fortify.
    pose proof (guessType_at (Some parsed) 0 _ eq_refl) as Hat. simpl in Hat.
    rewrite Hat. split.
    + intros Hlead. split; [intros k e' _ Hk; lia | exact Hlead].
    + intros [_ Hlead]. exact Hlead.
  - intros Hnone. rewrite convertToHdf_run, Hparse, Hnone. reflexivity.
Qed.

(** X4: The dispatcher changes the state in one case only: it appends the
    failure message exactly when it returns nothing.  When it returns a
    record or throws, the state is the one it started from. *)
Theorem convertToHdf_footprint (file : File) (data : string) (st : state) :
  (convertToHdf JSON_parse toHdf file data st
   = (Returned None, notified no_fingerprints st))
  \/ (snd (convertToHdf JSON_parse toHdf file data st) = st
      /\ fst (convertToHdf JSON_parse toHdf file data st) <> Returned None).
Proof.
  rewrite convertToHdf_run. unfold fallback, afterMapper.
  destruct (JSON_parse data) as [parsed |].
  - destruct (jsonChoice (guessType (Some parsed))) as [mapper |];
      [| left; reflexivity].
    destruct (toHdf mapper data) as [e | hdf];
      [| right; split; [reflexivity | discriminate]].
    destruct (heuristicChoice (name file) data) as [mapper' |];
      [| left; reflexivity].
    destruct (toHdf mapper' data); right; split;
      first [reflexivity | discriminate].
  - destruct (heuristicChoice (name file) data) as [mapper' |];
      [| left; reflexivity].
    destruct (toHdf mapper' data); right; split;
      first [reflexivity | discriminate].
Qed.

(** X5: A text that is not JSON, in a file whose name ends in .nessus in any
    letter case, goes to NessusResults whatever the text holds. *)
Theorem nessus_extension_any_case (base ext contents data : string)
  (st : state) :
  JSON_parse data = None ->
  toLowerCase ext = ".nessus" ->
  convertToHdf JSON_parse toHdf {| name := base +:+ ext; contents := contents |}
    data st
  = afterMapper (toHdf NessusResults data) st.
Proof.
  intros Hparse Hext. rewrite convertToHdf_run, Hparse.
  unfold fallback, heuristicChoice. simpl.
  rewrite toLowerCase_append, Hext, endsWith_append. reflexivity.
Qed.

(** X6: A text that is not JSON ends in the failure message only if it
    begins with the Netsparker marker; every other such text is handed to
    some mapper. *)
Theorem not_json_failure_needs_marker_prefix (file : File) (data : string)
  (st : state) :
  JSON_parse data = None ->
  fst (convertToHdf JSON_parse toHdf file data st) = Returned None ->
  substring 0 21 data = "netsparker-enterprise".
Proof.
  intros Hparse. rewrite convertToHdf_run, Hparse. unfold fallback, afterMapper.
  destruct (heuristicChoice (name file) data) as [mapper |] eqn:Hchoice.
  - destruct (toHdf mapper data); simpl; discriminate.
  - intros _. exact (heuristicChoice_none_prefix _ _ Hchoice).
Qed.

End DispatchFurther.

Lemma non_object_json_goes_to_zap_witness :
  isHDF JsonText.parse "[1, 2]" empty_state = (Returned false, empty_state)
  /\ convertToHdf JsonText.parse nessus_two_hosts
       {| name := "list.json"; contents := "[1, 2]" |} "[1, 2]" empty_state
     = (Thrown (Error "unsupported"), empty_state).
Proof.
  apply (non_object_json_goes_to_zap JsonText.parse nessus_two_hosts
           {| name := "list.json"; contents := "[1, 2]" |} "[1, 2]"
           (JArr [JNum 1; JNum 2]) empty_state);
    reflexivity.
Defined.

Lemma json_rejected_iff_fortify_leads_witness :
  convertToHdf JsonText.parse every_mapper_throws
    {| name := "audit.json"; contents := fortify_text |} fortify_text empty_state
  = (Returned None, notified no_fingerprints empty_state).
Proof.
  apply (proj2 (json_rejected_iff_fortify_leads JsonText.parse
                  every_mapper_throws
                  {| name := "audit.json"; contents := fortify_text |}
                  fortify_text (JObj [("FVDL", JObj [("UUID", JStr "u")])])
                  empty_state eq_refl));
    reflexivity.
Defined.

Lemma nessus_extension_any_case_witness :
  convertToHdf JsonText.parse nessus_two_hosts
    {| name := "Scan.NESSUS"; contents := "<NessusClientData_v2/>" |}
    "<NessusClientData_v2/>" empty_state
  = (Returned (Some (Many [JObj [("host", JStr "a")];
                           JObj [("host", JStr "b")]])), empty_state).
Proof.
  apply (nessus_extension_any_case JsonText.parse nessus_two_hosts
           "Scan" ".NESSUS" "<NessusClientData_v2/>" "<NessusClientData_v2/>"
           empty_state);
    reflexivity.
Defined.

Lemma not_json_failure_needs_marker_prefix_witness :
  substring 0 21 netsparker_first_text = "netsparker-enterprise".
Proof.
  apply (not_json_failure_needs_marker_prefix JsonText.parse
           every_mapper_throws
           {| name := "notes.txt"; contents := netsparker_first_text |}
           netsparker_first_text empty_state);
    reflexivity.
Defined.

(** * Further properties of the ingestion *)

Ltac ingested_facts :=
  unfold ingested, readProp, isFrozen; simpl;
  repeat split; try reflexivity;
  try (intros l Hl1 Hl2; rewrite !lookup_insert_ne by congruence; reflexivity);
  rewrite ?lookup_insert_eq;
  try (rewrite lookup_insert_ne by lia; rewrite lookup_insert_eq);
  simpl; try reflexivity; apply get_set_prop.

Ltac abandoned_facts :=
  unfold abandoned; simpl;
  repeat split; try reflexivity;
  intros l Hl; rewrite lookup_insert_ne by congruence; reflexivity.

Section IngestionFurther.

Variable JSON_parse : string -> option json.
Variable toHdf : Mapper -> string -> exn + Converted.
Variable convertFile : string -> ConversionResult.
Variable contextualizeEvaluation : json -> exn + list (string * value).
Variable contextualizeProfile : json -> exn + list (string * value).
Variable uuid : nat -> FileID.

Lemma loadExecJson_effect (options : ExecJSONLoadOptions) (st : state)
  (content : list (string * value)) :
  contextualizeEvaluation (el_data options) = inr content ->
  exists st',
    loadExecJson contextualizeEvaluation uuid options st
    = (Returned (uuid (minted st)), st')
    /\ ingested "evaluation" (el_filename options) (uuid (minted st)) st st'
    /\ executionFiles st' = executionFiles st ++ [allocated st]
    /\ profileFiles st' = profileFiles st
    /\ selectedEvaluationIds st'
       = selectedEvaluationIds st ++ [uuid (minted st)]
    /\ selectedProfileIds st' = selectedProfileIds st
    /\ snackbar st' = snackbar st
    /\ console st' = console st.
Proof.
  intros Hctx. unfold loadExecJson.
  unfold bind, lift, new_uuid, newObject. simpl. rewrite Hctx. run_ingest.
  eexists. split; [reflexivity |]. split; [ingested_facts |].
  repeat split; reflexivity.
Qed.

Lemma loadExecJson_failure (options : ExecJSONLoadOptions) (st : state)
  (e : exn) :
  contextualizeEvaluation (el_data options) = inl e ->
  exists st',
    loadExecJson contextualizeEvaluation uuid options st = (Thrown e, st')
    /\ abandoned st st'.
Proof.
  intros Hctx. unfold loadExecJson.
  unfold bind, lift, new_uuid, newObject, throw. simpl. rewrite Hctx.
  eexists. split; [reflexivity |]. abandoned_facts.
Qed.

Lemma loadText_execution_effect (options : TextLoadOptions) (st : state)
  (execJson : json) (content : list (string * value)) :
  v1_0_ExecJson (convertFile (tl_text options)) = Some execJson ->
  contextualizeEvaluation execJson = inr content ->
  exists st',
    loadText convertFile contextualizeEvaluation contextualizeProfile uuid
      options st
    = (Returned (uuid (minted st)), st')
    /\ ingested "evaluation" (tl_filename options) (uuid (minted st)) st st'
    /\ executionFiles st' = executionFiles st ++ [allocated st]
    /\ profileFiles st' = profileFiles st
    /\ selectedEvaluationIds st'
       = selectedEvaluationIds st ++ [uuid (minted st)]
    /\ selectedProfileIds st' = selectedProfileIds st
    /\ snackbar st' = snackbar st
    /\ console st' = console st.
Proof.
  intros Hexec Hctx. unfold loadText.
  unfold bind at 1. unfold new_uuid at 1. cbv beta iota.
  rewrite Hexec.
  unfold bind, lift, newObject. simpl. rewrite Hctx. run_ingest.
  eexists. split; [reflexivity |]. split; [ingested_facts |].
  repeat split; reflexivity.
Qed.

Lemma loadText_execution_failure (options : TextLoadOptions) (st : state)
  (execJson : json) (e : exn) :
  v1_0_ExecJson (convertFile (tl_text options)) = Some execJson ->
  contextualizeEvaluation execJson = inl e ->
  exists st',
    loadText convertFile contextualizeEvaluation contextualizeProfile uuid
      options st
    = (Thrown e, st')
    /\ abandoned st st'.
Proof.
  intros Hexec Hctx. unfold loadText.
  unfold bind at 1. unfold new_uuid at 1. cbv beta iota.
  rewrite Hexec.
  unfold bind, lift, newObject, throw. simpl. rewrite Hctx.
  eexists. split; [reflexivity |]. abandoned_facts.
Qed.

Lemma loadText_profile_effect (options : TextLoadOptions) (st : state)
  (profileJson : json) (content : list (string * value)) :
  v1_0_ExecJson (convertFile (tl_text options)) = None ->
  v1_0_ProfileJson (convertFile (tl_text options)) = Some profileJson ->
  contextualizeProfile profileJson = inr content ->
  exists st',
    loadText convertFile contextualizeEvaluation contextualizeProfile uuid
      options st
    = (Returned (uuid (minted st)), st')
    /\ ingested "profile" (tl_filename options) (uuid (minted st)) st st'
    /\ executionFiles st' = executionFiles st
    /\ profileFiles st' = profileFiles st ++ [allocated st]
    /\ selectedEvaluationIds st' = selectedEvaluationIds st
    /\ selectedProfileIds st'
       = selectedProfileIds st ++ [uuid (minted st)]
    /\ snackbar st' = snackbar st
    /\ console st' = console st.
Proof.
  intros Hexec Hprofile Hctx. unfold loadText.
  unfold bind at 1. unfold new_uuid at 1. cbv beta iota.
  rewrite Hexec, Hprofile.
  unfold bind, lift, newObject. simpl. rewrite Hctx. run_ingest.
  eexists. split; [reflexivity |]. split; [ingested_facts |].
  repeat split; reflexivity.
Qed.

Lemma loadText_profile_failure (options : TextLoadOptions) (st : state)
  (profileJson : json) (e : exn) :
  v1_0_ExecJson (convertFile (tl_text options)) = None ->
  v1_0_ProfileJson (convertFile (tl_text options)) = Some profileJson ->
  contextualizeProfile profileJson = inl e ->
  exists st',
    loadText convertFile contextualizeEvaluation contextualizeProfile uuid
      options st
    = (Thrown e, st')
    /\ abandoned st st'.
Proof.
  intros Hexec Hprofile Hctx. unfold loadText.
  unfold bind at 1. unfold new_uuid at 1. cbv beta iota.
  rewrite Hexec, Hprofile.
  unfold bind, lift, newObject, throw. simpl. rewrite Hctx.
  eexists. split; [reflexivity |]. abandoned_facts.
Qed.

Lemma loadText_unrecognized_effect (options : TextLoadOptions) (st : state) :
  v1_0_ExecJson (convertFile (tl_text options)) = None ->
  v1_0_ProfileJson (convertFile (tl_text options)) = None ->
  exists st',
    loadText convertFile contextualizeEvaluation contextualizeProfile uuid
      options st
    = (Thrown (Error could_not_parse), st')
    /\ heap st' = heap st /\ allocated st' = allocated st
    /\ executionFiles st' = executionFiles st
    /\ profileFiles st' = profileFiles st
    /\ selectedEvaluationIds st' = selectedEvaluationIds st
    /\ selectedProfileIds st' = selectedProfileIds st
    /\ snackbar st' = snackbar st.
Proof.
  intros Hexec Hprofile. unfold loadText.
  unfold bind at 1. unfold new_uuid at 1. cbv beta iota.
  rewrite Hexec, Hprofile.
  unfold bind, console_error, throw. simpl.
  eexists. split; [reflexivity |]. simpl. repeat split; reflexivity.
Qed.

End IngestionFurther.

(** ** The registry invariant *)

Lemma linked_kept (st st' : state) (field : string) (w : nat) :
  old_objects_kept st st' -> linked st field w -> linked st' field w.
Proof.
  intros [Hle Hheap] (c & Hw & Hc & Hfield & Hback & Hfrozen).
  exists c. unfold readProp, isFrozen in *.
  rewrite (Hheap _ Hw), (Hheap _ Hc). repeat split; try assumption; lia.
Qed.

Lemma ingested_keeps_old (field filename : string) (id : FileID)
  (st st' : state) :
  ingested field filename id st st' -> old_objects_kept st st'.
Proof.
  intros (Halloc & _ & Hheap & _). split; [lia |].
  intros l Hl. apply Hheap; lia.
Qed.

Lemma ingested_linked (field filename : string) (id : FileID)
  (st st' : state) :
  ingested field filename id st st' -> linked st' field (allocated st).
Proof.
  intros (Halloc & _ & _ & Hfield & Hback & _ & _ & Hfrozen & _).
  exists (S (allocated st)). rewrite Halloc. repeat split; try assumption; lia.
Qed.

Lemma registered_below (st : state) (w : nat) :
  registry_ok st -> w ∈ executionFiles st ++ profileFiles st ->
  w < allocated st.
Proof.
  intros (Hexec & Hprof & _) Hin. apply list_elem_of_In, in_app_or in Hin.
  destruct Hin as [Hin | Hin].
  - destruct (Hexec _ Hin) as (c & Hw & _). exact Hw.
  - destruct (Hprof _ Hin) as (c & Hw & _). exact Hw.
Qed.

Lemma registry_ok_execution (filename : string) (id : FileID)
  (st st' : state) :
  registry_ok st ->
  ingested "evaluation" filename id st st' ->
  executionFiles st' = executionFiles st ++ [allocated st] ->
  profileFiles st' = profileFiles st ->
  registry_ok st'.
Proof.
  intros Hok Hing Hexec Hprof.
  pose proof (ingested_keeps_old _ _ _ _ _ Hing) as Hkept.
  pose proof (registered_below st) as Hbelow.
  destruct Hok as (Hexecs & Hprofs & Hnodup).
  assert (Hok : registry_ok st) by (repeat split; assumption).
  rewrite NoDup_app in Hnodup. destruct Hnodup as (Hnd1 & Hdisj & Hnd2).
  split; [| split].
  - intros w Hin. rewrite Hexec in Hin. apply in_app_or in Hin.
    destruct Hin as [Hin | [<- | []]].
    + apply (linked_kept st st' _ _ Hkept). exact (Hexecs _ Hin).
    + exact (ingested_linked _ _ _ _ _ Hing).
  - intros w Hin. rewrite Hprof in Hin.
    apply (linked_kept st st' _ _ Hkept). exact (Hprofs _ Hin).
  - rewrite Hexec, Hprof.
    assert (Hfresh : allocated st ∉ executionFiles st ++ profileFiles st).
    { intros Hin. specialize (Hbelow _ Hok Hin). lia. }
    rewrite not_elem_of_app in Hfresh. destruct Hfresh as [Hf1 Hf2].
    rewrite NoDup_app. split; [| split].
    + rewrite NoDup_app. split; [exact Hnd1 | split].
      * intros x Hx Hx'. apply list_elem_of_singleton in Hx'. subst x.
        exact (Hf1 Hx).
      * apply NoDup_singleton.
    + intros x Hx. apply elem_of_app in Hx. destruct Hx as [Hx | Hx].
      * exact (Hdisj _ Hx).
      * apply list_elem_of_singleton in Hx. subst x. exact Hf2.
    + exact Hnd2.
Qed.

Lemma registry_ok_profile (filename : string) (id : FileID)
  (st st' : state) :
  registry_ok st ->
  ingested "profile" filename id st st' ->
  executionFiles st' = executionFiles st ->
  profileFiles st' = profileFiles st ++ [allocated st] ->
  registry_ok st'.
Proof.
  intros Hok Hing Hexec Hprof.
  pose proof (ingested_keeps_old _ _ _ _ _ Hing) as Hkept.
  pose proof (registered_below st) as Hbelow.
  destruct Hok as (Hexecs & Hprofs & Hnodup).
  assert (Hok : registry_ok st) by (repeat split; assumption).
  rewrite NoDup_app in Hnodup. destruct Hnodup as (Hnd1 & Hdisj & Hnd2).
  split; [| split].
  - intros w Hin. rewrite Hexec in Hin.
    apply (linked_kept st st' _ _ Hkept). exact (Hexecs _ Hin).
  - intros w Hin. rewrite Hprof in Hin. apply in_app_or in Hin.
    destruct Hin as [Hin | [<- | []]].
    + apply (linked_kept st st' _ _ Hkept). exact (Hprofs _ Hin).
    + exact (ingested_linked _ _ _ _ _ Hing).
  - rewrite Hexec, Hprof.
    assert (Hfresh : allocated st ∉ executionFiles st ++ profileFiles st).
    { intros Hin. specialize (Hbelow _ Hok Hin). lia. }
    rewrite not_elem_of_app in Hfresh. destruct Hfresh as [Hf1 Hf2].
    rewrite NoDup_app. split; [exact Hnd1 | split].
    + intros x Hx Hx'. apply elem_of_app in Hx'. destruct Hx' as [Hx' | Hx'].
      * exact (Hdisj _ Hx Hx').
      * apply list_elem_of_singleton in Hx'. subst x. exact (Hf1 Hx).
    + rewrite NoDup_app. split; [exact Hnd2 | split].
      * intros x Hx Hx'. apply list_elem_of_singleton in Hx'. subst x.
        exact (Hf2 Hx).
      * apply NoDup_singleton.
Qed.

(** The invariant looks at the heap, the allocation counter and the two
    lists of registered files only. *)
Lemma registry_ok_same (st st' : state) :
  heap st' = heap st -> allocated st' = allocated st ->
  executionFiles st' = executionFiles st ->
  profileFiles st' = profileFiles st ->
  registry_ok st -> registry_ok st'.
Proof.
  intros Hh Ha He Hp (Hexecs & Hprofs & Hnodup).
  unfold registry_ok, linked, readProp, isFrozen.
  rewrite Hh, Ha, He, Hp. repeat split; assumption.
Qed.

Lemma registry_ok_kept (st st' : state) :
  old_objects_kept st st' ->
  executionFiles st' = executionFiles st ->
  profileFiles st' = profileFiles st ->
  registry_ok st -> registry_ok st'.
Proof.
  intros Hkept He Hp (Hexecs & Hprofs & Hnodup).
  split; [| split].
  - intros w Hin. rewrite He in Hin.
    exact (linked_kept _ _ _ _ Hkept (Hexecs _ Hin)).
  - intros w Hin. rewrite Hp in Hin.
    exact (linked_kept _ _ _ _ Hkept (Hprofs _ Hin)).
  - rewrite He, Hp. exact Hnodup.
Qed.

Lemma abandoned_keeps_old (st st' : state) :
  abandoned st st' -> old_objects_kept st st'.
Proof.
  intros (Halloc & _ & Hheap & _). split; [lia |].
  intros l Hl. apply Hheap. lia.
Qed.

Section LoadFile.

Variable JSON_parse : string -> option json.
Variable toHdf : Mapper -> string -> exn + Converted.
Variable convertFile : string -> ConversionResult.
Variable contextualizeEvaluation : json -> exn + list (string * value).
Variable contextualizeProfile : json -> exn + list (string * value).
Variable uuid : nat -> FileID.

Lemma convertToHdf_state (file : File) (data : string) (st : state) :
  snd (convertToHdf JSON_parse toHdf file data st) = st
  \/ snd (convertToHdf JSON_parse toHdf file data st)
     = notified no_fingerprints st.
Proof.
  rewrite convertToHdf_run. unfold fallback, afterMapper.
  destruct (JSON_parse data) as [parsed |].
  - destruct (jsonChoice (guessType (Some parsed))) as [mapper |]; [| auto].
    destruct (toHdf mapper data) as [e | hdf]; [| auto].
    destruct (heuristicChoice (name file) data) as [mapper' |]; [| auto].
    destruct (toHdf mapper' data); auto.
  - destruct (heuristicChoice (name file) data) as [mapper' |]; [| auto].
    destruct (toHdf mapper' data); auto.
Qed.

Lemma convertToHdf_footprint_some (file : File) (data : string) (st : state) :
  forall hdf,
    fst (convertToHdf JSON_parse toHdf file data st) = Returned (Some hdf) ->
    snd (convertToHdf JSON_parse toHdf file data st)
    <> notified no_fingerprints st.
Proof.
  intros hdf. rewrite convertToHdf_run. unfold fallback, afterMapper.
  assert (Hneq : st <> notified no_fingerprints st).
  { intros Heq. apply (f_equal (fun s => length (snackbar s))) in Heq.
    simpl in Heq. rewrite length_app in Heq. simpl in Heq. lia. }
  destruct (JSON_parse data) as [parsed |].
  - destruct (jsonChoice (guessType (Some parsed))) as [mapper |];
      [| discriminate].
    destruct (toHdf mapper data) as [e | hdf']; [| intros _; exact Hneq].
    destruct (heuristicChoice (name file) data) as [mapper' |];
      [| discriminate].
    destruct (toHdf mapper' data); [discriminate | intros _; exact Hneq].
  - destruct (heuristicChoice (name file) data) as [mapper' |];
      [| discriminate].
    destruct (toHdf mapper' data); [discriminate | intros _; exact Hneq].
Qed.

Lemma convertToHdf_footprint_thrown (file : File) (data : string)
  (st : state) :
  forall e,
    fst (convertToHdf JSON_parse toHdf file data st) = Thrown e ->
    snd (convertToHdf JSON_parse toHdf file data st)
    <> notified no_fingerprints st.
Proof.
  intros e. rewrite convertToHdf_run. unfold fallback, afterMapper.
  assert (Hneq : st <> notified no_fingerprints st).
  { intros Heq. apply (f_equal (fun s => length (snackbar s))) in Heq.
    simpl in Heq. rewrite length_app in Heq. simpl in Heq. lia. }
  destruct (JSON_parse data) as [parsed |].
  - destruct (jsonChoice (guessType (Some parsed))) as [mapper |];
      [| discriminate].
    destruct (toHdf mapper data) as [e' | hdf']; [| discriminate].
    destruct (heuristicChoice (name file) data) as [mapper' |];
      [| discriminate].
    destruct (toHdf mapper' data); [intros _; exact Hneq | discriminate].
  - destruct (heuristicChoice (name file) data) as [mapper' |];
      [| discriminate].
    destruct (toHdf mapper' data); [intros _; exact Hneq | discriminate].
Qed.

(** How loadFile is put together, in terms of the outcomes of its
    steps. *)
Lemma loadFile_run (file : File) (st : state) :
  loadFile JSON_parse toHdf convertFile contextualizeEvaluation
    contextualizeProfile uuid file st
  = if match JSON_parse (contents file) with
       | Some parsed => normalizedShape parsed
       | None => false
       end
    then
      match loadText convertFile contextualizeEvaluation contextualizeProfile
              uuid
              {| tl_filename := name file; tl_database_id := VUndefined;
                 tl_createdAt := VUndefined; tl_updatedAt := VUndefined;
                 tl_tags := VUndefined; tl_text := contents file |} st with
      | (Returned id, st') => (Returned (OneID id), st')
      | (Thrown e, st') => (Thrown e, st')
      end
    else
      match convertToHdf JSON_parse toHdf file (contents file) st with
      | (Returned (Some (Many evaluations)), st') =>
          match loadAll contextualizeEvaluation uuid (name file) evaluations
                  st' with
          | (Returned ids, st'') => (Returned (ManyIDs ids), st'')
          | (Thrown e, st'') => (Thrown e, st'')
          end
      | (Returned (Some (One evaluation)), st') =>
          match loadExecJson contextualizeEvaluation uuid
                  {| el_filename := name file; el_database_id := VUndefined;
                     el_createdAt := VUndefined; el_updatedAt := VUndefined;
                     el_tags := VUndefined; el_data := evaluation |} st' with
          | (Returned id, st'') => (Returned (OneID id), st'')
          | (Thrown e, st'') => (Thrown e, st'')
          end
      | (Returned None, st') => (Returned (ManyIDs []), st')
      | (Thrown e, st') => (Thrown e, st')
      end.
Proof.
  unfold loadFile, read_file_async.
  unfold bind at 1. unfold ret at 1. cbv beta iota.
  unfold bind at 1. rewrite isHDF_run.
  destruct (match JSON_parse (contents file) with
            | Some parsed => normalizedShape parsed
            | None => false
            end).
  - unfold bind, ret.
    destruct (loadText _ _ _ _ _ st) as [[id | e] st']; reflexivity.
  - unfold bind at 1.
    destruct (convertToHdf JSON_parse toHdf file (contents file) st)
      as [[[[evaluation | evaluations] |] | e] st']; reflexivity.
Qed.

Lemma seq_map_step (a n : nat) :
  map (fun i => a + 2 * i) (seq 0 (S n))
  = a :: map (fun i => S (S a) + 2 * i) (seq 0 n).
Proof.
  simpl. f_equal; [lia |]. rewrite <- seq_shift, map_map.
  apply map_ext. intros i. lia.
Qed.

Lemma old_objects_kept_trans (st1 st2 st3 : state) :
  old_objects_kept st1 st2 -> old_objects_kept st2 st3 ->
  old_objects_kept st1 st3.
Proof.
  intros [Hle1 Hh1] [Hle2 Hh2]. split; [lia |].
  intros l Hl. rewrite Hh2 by lia. apply Hh1. exact Hl.
Qed.

Lemma promiseAll_returned (A : Type) (values : list A) :
  promiseAll (map Returned values) = Returned values.
Proof.
  induction values as [| a rest IH]; simpl; [reflexivity |].
  rewrite IH. reflexivity.
Qed.

Lemma promiseAll_counts (evaluations : list json)
  (outcomes : list (outcome FileID)) (ids : list FileID) :
  Forall2 (outcome_of contextualizeEvaluation) evaluations outcomes ->
  promiseAll outcomes = Returned ids ->
  length ids = length (List.filter (accepted contextualizeEvaluation) evaluations).
Proof.
  intros Hall. revert ids.
  induction Hall as [| evaluation r evaluations outcomes Hr _ IH];
    intros ids Hids.
  - injection Hids as <-. reflexivity.
  - unfold outcome_of in Hr. simpl. unfold accepted at 1.
    destruct (contextualizeEvaluation evaluation) as [e | content].
    + subst r. discriminate Hids.
    + destruct Hr as [id ->]. simpl in Hids.
      destruct (promiseAll outcomes) as [others | e]; [| discriminate Hids].
      injection Hids as <-. simpl. f_equal. apply IH. reflexivity.
Qed.

Lemma promiseAll_first_failure (good rest : list json) (bad : json)
  (e : exn) (outcomes : list (outcome FileID)) :
  Forall2 (outcome_of contextualizeEvaluation) (good ++ bad :: rest) outcomes ->
  Forall (fun evaluation => accepted contextualizeEvaluation evaluation = true)
    good ->
  contextualizeEvaluation bad = inl e ->
  promiseAll outcomes = Thrown e.
Proof.
  revert outcomes. induction good as [| g good IH]; intros outcomes Hall Hgood Hbad.
  - simpl in Hall. inversion Hall as [| ? r ? others Hr _]; subst.
    unfold outcome_of in Hr. rewrite Hbad in Hr. subst r. reflexivity.
  - simpl in Hall. inversion Hall as [| ? r ? others Hr Hothers]; subst.
    inversion Hgood as [| ? ? Hg Hgood']; subst.
    unfold outcome_of in Hr. unfold accepted in Hg.
    destruct (contextualizeEvaluation g); [discriminate Hg |].
    destruct Hr as [id ->]. simpl.
    rewrite (IH others Hothers Hgood' Hbad). reflexivity.
Qed.

(** What the mapped loads do, whatever their outcomes: each outcome
    follows from [contextualizeEvaluation], as many wrappers are
    registered as there are accepted executions, and nothing else
    changes in the profiles or the notifications. *)
Lemma loadEach_effect (fileName : string) (evaluations : list json) :
  forall st,
  exists outcomes st',
    loadEach contextualizeEvaluation uuid fileName evaluations st
    = (outcomes, st')
    /\ Forall2 (outcome_of contextualizeEvaluation) evaluations outcomes
    /\ length (executionFiles st')
       = length (executionFiles st)
         + length (List.filter (accepted contextualizeEvaluation) evaluations)
    /\ profileFiles st' = profileFiles st
    /\ snackbar st' = snackbar st
    /\ old_objects_kept st st'
    /\ (registry_ok st -> registry_ok st').
Proof.
  induction evaluations as [| evaluation rest IH]; intros st.
  - exists [], st. simpl.
    split; [reflexivity |]. split; [constructor |]. split; [lia |].
    split; [reflexivity |]. split; [reflexivity |].
    split; [| exact (fun H => H)].
    split; [lia | reflexivity].
  - set (options := {| el_filename := fileName; el_database_id := VUndefined;
                       el_createdAt := VUndefined; el_updatedAt := VUndefined;
                       el_tags := VUndefined; el_data := evaluation |}).
    destruct (contextualizeEvaluation evaluation) as [e | content] eqn:Hctx.
    + destruct (loadExecJson_failure contextualizeEvaluation uuid options st e
                  Hctx) as (st1 & Hrun & Hab).
      destruct (IH st1)
        as (others & st' & Hrun' & Hall & Hexec' & Hprof' & Hsnack' & Hkept'
            & Hok').
      pose proof (abandoned_keeps_old _ _ Hab) as Hkept.
      destruct Hab as (_ & _ & _ & Hexec & Hprof & _ & _ & Hsnack & _).
      exists (Thrown e :: others), st'.
      split; [| split; [| split; [| split; [| split; [| split]]]]].
      * cbn [loadEach]. fold options. rewrite Hrun, Hrun'. reflexivity.
      * constructor; [| exact Hall]. unfold outcome_of. rewrite Hctx.
        reflexivity.
      * simpl. unfold accepted at 1. rewrite Hctx. rewrite Hexec', Hexec.
        reflexivity.
      * congruence.
      * congruence.
      * exact (old_objects_kept_trans _ _ _ Hkept Hkept').
      * intros Hok. apply Hok'.
        exact (registry_ok_kept _ _ Hkept Hexec Hprof Hok).
    + destruct (loadExecJson_effect contextualizeEvaluation uuid options st
                  content Hctx)
        as (st1 & Hrun & Hing & Hexec & Hprof & _ & _ & Hsnack & _).
      destruct (IH st1)
        as (others & st' & Hrun' & Hall & Hexec' & Hprof' & Hsnack' & Hkept'
            & Hok').
      exists (Returned (uuid (minted st)) :: others), st'.
      split; [| split; [| split; [| split; [| split; [| split]]]]].
      * cbn [loadEach]. fold options. rewrite Hrun, Hrun'. reflexivity.
      * constructor; [| exact Hall]. unfold outcome_of. rewrite Hctx.
        eexists. reflexivity.
      * simpl. unfold accepted at 1. rewrite Hctx. rewrite Hexec', Hexec.
        rewrite length_app. simpl. lia.
      * congruence.
      * congruence.
      * eapply old_objects_kept_trans; [| exact Hkept'].
        exact (ingested_keeps_old _ _ _ _ _ Hing).
      * intros Hok. apply Hok'.
        exact (registry_ok_execution _ _ _ _ Hok Hing Hexec Hprof).
Qed.

(** The mapped loads when every execution is accepted. *)
Lemma loadEach_accepted (fileName : string) (evaluations : list json) :
  Forall (fun evaluation => accepted contextualizeEvaluation evaluation = true)
    evaluations ->
  forall st,
  exists st',
    loadEach contextualizeEvaluation uuid fileName evaluations st
    = (map Returned (map uuid (seq (minted st) (length evaluations))), st')
    /\ executionFiles st'
       = executionFiles st
         ++ map (fun i => allocated st + 2 * i) (seq 0 (length evaluations))
    /\ selectedEvaluationIds st'
       = selectedEvaluationIds st
         ++ map uuid (seq (minted st) (length evaluations))
    /\ profileFiles st' = profileFiles st
    /\ snackbar st' = snackbar st.
Proof.
  induction 1 as [| evaluation rest Hacc _ IH]; intros st.
  - exists st. simpl. rewrite !app_nil_r. repeat split; reflexivity.
  - unfold accepted in Hacc.
    destruct (contextualizeEvaluation evaluation) as [e | content] eqn:Hctx;
      [discriminate Hacc |].
    destruct (loadExecJson_effect contextualizeEvaluation uuid
                {| el_filename := fileName; el_database_id := VUndefined;
                   el_createdAt := VUndefined; el_updatedAt := VUndefined;
                   el_tags := VUndefined; el_data := evaluation |} st content
                Hctx)
      as (st1 & Hrun & Hing & Hexec & Hprof & Hsel & _ & Hsnack & _).
    destruct (IH st1) as (st' & Hrun' & Hexec' & Hsel' & Hprof' & Hsnack').
    pose proof Hing as (Halloc & Hminted & _).
    exists st'. split; [| split; [| split; [| split]]].
    + cbn [loadEach]. rewrite Hrun, Hrun'. cbn [length seq map].
      rewrite Hminted. reflexivity.
    + rewrite Hexec', Hexec, Halloc. cbn [length].
      rewrite seq_map_step. rewrite <- app_assoc. reflexivity.
    + rewrite Hsel', Hsel, Hminted. cbn [length seq map].
      rewrite <- app_assoc. reflexivity.
    + congruence.
    + congruence.
Qed.

Lemma registry_ok_loadExecJson (options : ExecJSONLoadOptions) (st : state) :
  registry_ok st ->
  registry_ok (snd (loadExecJson contextualizeEvaluation uuid options st)).
Proof.
  intros Hok.
  destruct (contextualizeEvaluation (el_data options)) as [e | content]
    eqn:Hctx.
  - destruct (loadExecJson_failure contextualizeEvaluation uuid options st e
                Hctx) as (st' & Hrun & Hab).
    rewrite Hrun. pose proof (abandoned_keeps_old _ _ Hab) as Hkept.
    destruct Hab as (_ & _ & _ & Hexec & Hprof & _).
    exact (registry_ok_kept _ _ Hkept Hexec Hprof Hok).
  - destruct (loadExecJson_effect contextualizeEvaluation uuid options st
                content Hctx)
      as (st' & Hrun & Hing & Hexec & Hprof & _).
    rewrite Hrun. exact (registry_ok_execution _ _ _ _ Hok Hing Hexec Hprof).
Qed.

Lemma registry_ok_loadText (options : TextLoadOptions) (st : state) :
  registry_ok st ->
  registry_ok
    (snd (loadText convertFile contextualizeEvaluation contextualizeProfile
            uuid options st)).
Proof.
  intros Hok.
  destruct (v1_0_ExecJson (convertFile (tl_text options)))
    as [execJson |] eqn:Hexec.
  - destruct (contextualizeEvaluation execJson) as [e | content] eqn:Hctx.
    + destruct (loadText_execution_failure convertFile contextualizeEvaluation
                  contextualizeProfile uuid options st execJson e Hexec Hctx)
        as (st' & Hrun & Hab).
      rewrite Hrun. pose proof (abandoned_keeps_old _ _ Hab) as Hkept.
      destruct Hab as (_ & _ & _ & He & Hp & _).
      exact (registry_ok_kept _ _ Hkept He Hp Hok).
    + destruct (loadText_execution_effect convertFile contextualizeEvaluation
                  contextualizeProfile uuid options st execJson content Hexec
                  Hctx)
        as (st' & Hrun & Hing & He & Hp & _).
      rewrite Hrun. exact (registry_ok_execution _ _ _ _ Hok Hing He Hp).
  - destruct (v1_0_ProfileJson (convertFile (tl_text options)))
      as [profileJson |] eqn:Hprofile.
    + destruct (contextualizeProfile profileJson) as [e | content] eqn:Hctx.
      * destruct (loadText_profile_failure convertFile contextualizeEvaluation
                    contextualizeProfile uuid options st profileJson e Hexec
                    Hprofile Hctx)
          as (st' & Hrun & Hab).
        rewrite Hrun. pose proof (abandoned_keeps_old _ _ Hab) as Hkept.
        destruct Hab as (_ & _ & _ & He & Hp & _).
        exact (registry_ok_kept _ _ Hkept He Hp Hok).
      * destruct (loadText_profile_effect convertFile contextualizeEvaluation
                    contextualizeProfile uuid options st profileJson content
                    Hexec Hprofile Hctx)
          as (st' & Hrun & Hing & He & Hp & _).
        rewrite Hrun. exact (registry_ok_profile _ _ _ _ Hok Hing He Hp).
    + destruct (loadText_unrecognized_effect convertFile
                  contextualizeEvaluation contextualizeProfile uuid options st
                  Hexec Hprofile)
        as (st' & Hrun & Hh & Ha & He & Hp & _).
      rewrite Hrun. exact (registry_ok_same _ _ Hh Ha He Hp Hok).
Qed.

Lemma registry_ok_loadFile (file : File) (st : state) :
  registry_ok st ->
  registry_ok
    (snd (loadFile JSON_parse toHdf convertFile contextualizeEvaluation
            contextualizeProfile uuid file st)).
Proof.
  intros Hok. rewrite loadFile_run.
  destruct (match JSON_parse (contents file) with
            | Some parsed => normalizedShape parsed
            | None => false
            end).
  - pose proof (registry_ok_loadText
                  {| tl_filename := name file; tl_database_id := VUndefined;
                     tl_createdAt := VUndefined; tl_updatedAt := VUndefined;
                     tl_tags := VUndefined; tl_text := contents file |} st Hok)
      as Hok'.
    destruct (loadText _ _ _ _ _ st) as [[id | e] st']; exact Hok'.
  - assert (Hok' : registry_ok
                     (snd (convertToHdf JSON_parse toHdf file (contents file)
                             st))).
    { destruct (convertToHdf_state file (contents file) st) as [-> | ->];
        [exact Hok |].
      apply (registry_ok_same st); try reflexivity. exact Hok. }
    destruct (convertToHdf JSON_parse toHdf file (contents file) st)
      as [[[[evaluation | evaluations] |] | e] st']; simpl in Hok';
      try exact Hok'.
    + pose proof (registry_ok_loadExecJson
                    {| el_filename := name file; el_database_id := VUndefined;
                       el_createdAt := VUndefined; el_updatedAt := VUndefined;
                       el_tags := VUndefined; el_data := evaluation |} st' Hok')
        as Hok''.
      destruct (loadExecJson _ _ _ st') as [[id | e] st'']; exact Hok''.
    + destruct (loadEach_effect (name file) evaluations st')
        as (outcomes & st'' & Hrun & _ & _ & _ & _ & _ & Hok'').
      unfold loadAll. rewrite Hrun.
      destruct (promiseAll outcomes); exact (Hok'' Hok').
Qed.

(** X8: loadExecJson returns exactly when [contextualizeEvaluation]
    returns on the data.  Then it has drawn one identifier, allocated a
    wrapper and a content object and touched no object that existed: the
    two are linked both ways, the content is frozen and the wrapper is
    not, the wrapper carries the identifier and the file name; one
    wrapper is registered and one identifier selected among the
    executions, and the profiles, the notifications and the console are
    as before.  When [contextualizeEvaluation] throws, loadExecJson throws
    the same error: an identifier was drawn and the wrapper created, and
    nothing is registered or selected. *)
Theorem loadExecJson_frame (options : ExecJSONLoadOptions) (st : state) :
  match contextualizeEvaluation (el_data options) with
  | inr content =>
      exists st',
        loadExecJson contextualizeEvaluation uuid options st
        = (Returned (uuid (minted st)), st')
        /\ ingested "evaluation" (el_filename options) (uuid (minted st))
             st st'
        /\ executionFiles st' = executionFiles st ++ [allocated st]
        /\ profileFiles st' = profileFiles st
        /\ selectedEvaluationIds st'
           = selectedEvaluationIds st ++ [uuid (minted st)]
        /\ selectedProfileIds st' = selectedProfileIds st
        /\ snackbar st' = snackbar st
        /\ console st' = console st
  | inl e =>
      exists st',
        loadExecJson contextualizeEvaluation uuid options st = (Thrown e, st')
        /\ abandoned st st'
  end.
Proof.
  destruct (contextualizeEvaluation (el_data options)) as [e | content]
    eqn:Hctx.
  - exact (loadExecJson_failure contextualizeEvaluation uuid options st e Hctx).
  - exact (loadExecJson_effect contextualizeEvaluation uuid options st content
             Hctx).
Qed.

(** X9: The registry invariant holds in the empty state and is kept by
    loadExecJson, by loadText and by loadFile, whatever their outcome:
    every registered wrapper stays linked, both ways, to a frozen content
    object, and no wrapper is registered twice. *)
Theorem registry_ok_preserved :
  registry_ok empty_state
  /\ (forall options st,
        registry_ok st ->
        registry_ok
          (snd (loadExecJson contextualizeEvaluation uuid options st)))
  /\ (forall options st,
        registry_ok st ->
        registry_ok
          (snd (loadText convertFile contextualizeEvaluation
                  contextualizeProfile uuid options st)))
  /\ (forall file st,
        registry_ok st ->
        registry_ok
          (snd (loadFile JSON_parse toHdf convertFile contextualizeEvaluation
                  contextualizeProfile uuid file st))).
Proof.
  split; [| split; [| split]].
  - split; [| split]; [intros w [] | intros w [] | constructor].
  - exact registry_ok_loadExecJson.
  - exact registry_ok_loadText.
  - exact registry_ok_loadFile.
Qed.

(** X10: When the dispatcher returns several executions for a file, each
    of which [contextualizeEvaluation] accepts, loadFile ingests them in
    order: it returns one identifier per execution, the identifiers drawn
    one after the other, registers and selects as many wrappers, and
    notifies nothing. *)
Theorem loadFile_many (file : File) (evaluations : list json) (st : state) :
  fst (isHDF JSON_parse (contents file) st) = Returned false ->
  convertToHdf JSON_parse toHdf file (contents file) st
  = (Returned (Some (Many evaluations)), st) ->
  Forall (fun evaluation => accepted contextualizeEvaluation evaluation = true)
    evaluations ->
  exists st',
    loadFile JSON_parse toHdf convertFile contextualizeEvaluation
      contextualizeProfile uuid file st
    = (Returned (ManyIDs (map uuid (seq (minted st) (length evaluations)))),
       st')
    /\ executionFiles st'
       = executionFiles st
         ++ map (fun i => allocated st + 2 * i) (seq 0 (length evaluations))
    /\ selectedEvaluationIds st'
       = selectedEvaluationIds st
         ++ map uuid (seq (minted st) (length evaluations))
    /\ profileFiles st' = profileFiles st
    /\ snackbar st' = snackbar st.
Proof.
  intros Hhdf Hconv Hacc. rewrite isHDF_run in Hhdf. simpl in Hhdf.
  injection Hhdf as Hhdf.
  destruct (loadEach_accepted (name file) evaluations Hacc st)
    as (st' & Hrun & Hexec & Hsel & Hprof & Hsnack).
  exists st'. rewrite loadFile_run, Hhdf, Hconv. unfold loadAll.
  rewrite Hrun, promiseAll_returned. auto.
Qed.

(** X11: When the dispatcher returns one execution for a file, which
    [contextualizeEvaluation] accepts, loadFile returns the single
    identifier it draws and registers one wrapper that carries the name
    of the file. *)
Theorem loadFile_one (file : File) (evaluation : json)
  (content : list (string * value)) (st : state) :
  fst (isHDF JSON_parse (contents file) st) = Returned false ->
  convertToHdf JSON_parse toHdf file (contents file) st
  = (Returned (Some (One evaluation)), st) ->
  contextualizeEvaluation evaluation = inr content ->
  exists st',
    loadFile JSON_parse toHdf convertFile contextualizeEvaluation
      contextualizeProfile uuid file st
    = (Returned (OneID (uuid (minted st))), st')
    /\ executionFiles st' = executionFiles st ++ [allocated st]
    /\ selectedEvaluationIds st'
       = selectedEvaluationIds st ++ [uuid (minted st)]
    /\ readProp st' (allocated st) "filename" = VString (name file)
    /\ readProp st' (allocated st) "uniqueId" = VString (uuid (minted st))
    /\ snackbar st' = snackbar st.
Proof.
  intros Hhdf Hconv Hctx. rewrite isHDF_run in Hhdf. simpl in Hhdf.
  injection Hhdf as Hhdf.
  destruct (loadExecJson_effect contextualizeEvaluation uuid
              {| el_filename := name file; el_database_id := VUndefined;
                 el_createdAt := VUndefined; el_updatedAt := VUndefined;
                 el_tags := VUndefined; el_data := evaluation |} st content
              Hctx)
    as (st' & Hrun & Hing & Hexec & _ & Hsel & _ & Hsnack & _).
  destruct Hing as (_ & _ & _ & _ & _ & Hid & Hname & _).
  exists st'. rewrite loadFile_run, Hhdf, Hconv, Hrun. auto 10.
Qed.

(** X12: A text that isHDF accepts is never handed to a converter.  If
    [convertFile] then recognizes neither an execution nor a profile in
    it, loadFile throws the parse error: nothing is registered or
    selected, no notification is shown, and the mappers play no part. *)
Theorem loadFile_hdf_unrecognized (file : File) (parsed : json) (st : state) :
  JSON_parse (contents file) = Some parsed ->
  normalizedShape parsed = true ->
  v1_0_ExecJson (convertFile (contents file)) = None ->
  v1_0_ProfileJson (convertFile (contents file)) = None ->
  exists st',
    loadFile JSON_parse toHdf convertFile contextualizeEvaluation
      contextualizeProfile uuid file st
    = (Thrown (Error could_not_parse), st')
    /\ heap st' = heap st
    /\ executionFiles st' = executionFiles st
    /\ profileFiles st' = profileFiles st
    /\ selectedEvaluationIds st' = selectedEvaluationIds st
    /\ selectedProfileIds st' = selectedProfileIds st
    /\ snackbar st' = snackbar st.
Proof.
  intros Hparse Hshape Hexec Hprofile.
  destruct (loadText_unrecognized_effect convertFile contextualizeEvaluation
              contextualizeProfile uuid
              {| tl_filename := name file; tl_database_id := VUndefined;
                 tl_createdAt := VUndefined; tl_updatedAt := VUndefined;
                 tl_tags := VUndefined; tl_text := contents file |} st
              Hexec Hprofile)
    as (st' & Hrun & Hh & _ & He & Hp & Hs & Hsp & Hsn).
  exists st'. rewrite loadFile_run, Hparse, Hshape, Hrun. auto 10.
Qed.

(** X13: When the text is not JSON and the mapper the fallback picks throws,
    loadFile throws that very error and the state is untouched. *)
Theorem loadFile_mapper_failure (file : File) (mapper : Mapper) (e : exn)
  (st : state) :
  JSON_parse (contents file) = None ->
  heuristicChoice (name file) (contents file) = Some mapper ->
  toHdf mapper (contents file) = inl e ->
  loadFile JSON_parse toHdf convertFile contextualizeEvaluation
    contextualizeProfile uuid file st
  = (Thrown e, st).
Proof.
  intros Hparse Hchoice Hfail.
  rewrite loadFile_run, Hparse, convertToHdf_run, Hparse.
  unfold fallback. rewrite Hchoice, Hfail. reflexivity.
Qed.

(** X14: loadText keeps the database id, the dates and the tags of its
    options in the wrapper of an execution, and drops them from the
    wrapper of a profile, which carries the identifier and the file name
    only; this holds as soon as the wrapper is built, whether or not the
    contextualization that follows returns.  When [convertFile] reports
    both an execution and a profile, the text is loaded as an execution:
    once the contextualization returns, the wrapper is registered among
    the executions, respectively the profiles, and nowhere else. *)
Theorem loadText_wrapper_fields (options : TextLoadOptions) (st : state) :
  (forall execJson,
      v1_0_ExecJson (convertFile (tl_text options)) = Some execJson ->
      let st' := snd (loadText convertFile contextualizeEvaluation
                        contextualizeProfile uuid options st) in
      readProp st' (allocated st) "database_id" = tl_database_id options
      /\ readProp st' (allocated st) "createdAt" = tl_createdAt options
      /\ readProp st' (allocated st) "updatedAt" = tl_updatedAt options
      /\ readProp st' (allocated st) "tags" = tl_tags options
      /\ (forall content,
            contextualizeEvaluation execJson = inr content ->
            executionFiles st' = executionFiles st ++ [allocated st]
            /\ profileFiles st' = profileFiles st))
  /\ (forall profileJson,
        v1_0_ExecJson (convertFile (tl_text options)) = None ->
        v1_0_ProfileJson (convertFile (tl_text options)) = Some profileJson ->
        let st' := snd (loadText convertFile contextualizeEvaluation
                          contextualizeProfile uuid options st) in
        readProp st' (allocated st) "database_id" = VUndefined
        /\ readProp st' (allocated st) "createdAt" = VUndefined
        /\ readProp st' (allocated st) "updatedAt" = VUndefined
        /\ readProp st' (allocated st) "tags" = VUndefined
        /\ readProp st' (allocated st) "filename"
           = VString (tl_filename options)
        /\ (forall content,
              contextualizeProfile profileJson = inr content ->
              profileFiles st' = profileFiles st ++ [allocated st])).
Proof.
  split.
  - intros execJson Hexec. unfold loadText.
    unfold bind at 1. unfold new_uuid at 1. cbv beta iota.
    rewrite Hexec. unfold bind, lift, newObject. simpl.
    destruct (contextualizeEvaluation execJson) as [e | content].
    + unfold throw, readProp. simpl. rewrite lookup_insert_eq.
      repeat split; try reflexivity; discriminate.
    + run_ingest. unfold readProp. simpl.
      rewrite lookup_insert_ne by lia. rewrite lookup_insert_eq.
      repeat split; reflexivity.
  - intros profileJson Hexec Hprofile. unfold loadText.
    unfold bind at 1. unfold new_uuid at 1. cbv beta iota.
    rewrite Hexec, Hprofile. unfold bind, lift, newObject. simpl.
    destruct (contextualizeProfile profileJson) as [e | content].
    + unfold throw, readProp. simpl. rewrite lookup_insert_eq.
      repeat split; try reflexivity; discriminate.
    + run_ingest. unfold readProp. simpl.
      rewrite lookup_insert_ne by lia. rewrite lookup_insert_eq.
      repeat split; reflexivity.
Qed.

Lemma filter_accepted_all (evaluations : list json) :
  Forall (fun evaluation => accepted contextualizeEvaluation evaluation = true)
    evaluations ->
  List.filter (accepted contextualizeEvaluation) evaluations = evaluations.
Proof.
  induction 1 as [| evaluation rest Hacc _ IH]; simpl; [reflexivity |].
  rewrite Hacc, IH. reflexivity.
Qed.

Lemma loadText_accounting (options : TextLoadOptions) (st : state) :
  let run := loadText convertFile contextualizeEvaluation contextualizeProfile
               uuid options st in
  (forall id, fst run = Returned id ->
     length (executionFiles (snd run) ++ profileFiles (snd run))
     = length (executionFiles st ++ profileFiles st) + 1)
  /\ snackbar (snd run) = snackbar st.
Proof.
  cbv zeta.
  destruct (v1_0_ExecJson (convertFile (tl_text options)))
    as [execJson |] eqn:Hexec.
  - destruct (contextualizeEvaluation execJson) as [e | content] eqn:Hctx.
    + destruct (loadText_execution_failure convertFile contextualizeEvaluation
                  contextualizeProfile uuid options st execJson e Hexec Hctx)
        as (st' & Hrun & Hab).
      rewrite Hrun. destruct Hab as (_ & _ & _ & _ & _ & _ & _ & Hsn & _).
      split; [intros id Hid; discriminate Hid | exact Hsn].
    + destruct (loadText_execution_effect convertFile contextualizeEvaluation
                  contextualizeProfile uuid options st execJson content Hexec
                  Hctx)
        as (st' & Hrun & _ & He & Hp & _ & _ & Hsn & _).
      rewrite Hrun. simpl. rewrite He, Hp, !length_app. simpl.
      split; [intros; lia | exact Hsn].
  - destruct (v1_0_ProfileJson (convertFile (tl_text options)))
      as [profileJson |] eqn:Hprofile.
    + destruct (contextualizeProfile profileJson) as [e | content] eqn:Hctx.
      * destruct (loadText_profile_failure convertFile contextualizeEvaluation
                    contextualizeProfile uuid options st profileJson e Hexec
                    Hprofile Hctx)
          as (st' & Hrun & Hab).
        rewrite Hrun. destruct Hab as (_ & _ & _ & _ & _ & _ & _ & Hsn & _).
        split; [intros id Hid; discriminate Hid | exact Hsn].
      * destruct (loadText_profile_effect convertFile contextualizeEvaluation
                    contextualizeProfile uuid options st profileJson content
                    Hexec Hprofile Hctx)
          as (st' & Hrun & _ & He & Hp & _ & _ & Hsn & _).
        rewrite Hrun. simpl. rewrite He, Hp, !length_app. simpl.
        split; [intros; lia | exact Hsn].
    + destruct (loadText_unrecognized_effect convertFile
                  contextualizeEvaluation contextualizeProfile uuid options st
                  Hexec Hprofile)
        as (st' & Hrun & _ & _ & _ & _ & _ & _ & Hsn).
      rewrite Hrun. split; [intros id Hid; discriminate Hid | exact Hsn].
Qed.

Lemma loadExecJson_accounting (options : ExecJSONLoadOptions) (st : state) :
  let run := loadExecJson contextualizeEvaluation uuid options st in
  (forall id, fst run = Returned id ->
     length (executionFiles (snd run) ++ profileFiles (snd run))
     = length (executionFiles st ++ profileFiles st) + 1)
  /\ snackbar (snd run) = snackbar st.
Proof.
  cbv zeta.
  destruct (contextualizeEvaluation (el_data options)) as [e | content]
    eqn:Hctx.
  - destruct (loadExecJson_failure contextualizeEvaluation uuid options st e
                Hctx) as (st' & Hrun & Hab).
    rewrite Hrun. destruct Hab as (_ & _ & _ & _ & _ & _ & _ & Hsn & _).
    split; [intros id Hid; discriminate Hid | exact Hsn].
  - destruct (loadExecJson_effect contextualizeEvaluation uuid options st
                content Hctx)
      as (st' & Hrun & _ & He & Hp & _ & _ & Hsn & _).
    rewrite Hrun. simpl. rewrite He, Hp, !length_app. simpl.
    split; [intros; lia | exact Hsn].
Qed.

Lemma loadAll_accounting (fileName : string) (evaluations : list json)
  (st : state) :
  let run := loadAll contextualizeEvaluation uuid fileName evaluations st in
  (forall ids, fst run = Returned ids ->
     length (executionFiles (snd run) ++ profileFiles (snd run))
     = length (executionFiles st ++ profileFiles st) + length ids)
  /\ snackbar (snd run) = snackbar st.
Proof.
  cbv zeta. unfold loadAll.
  destruct (loadEach_effect fileName evaluations st)
    as (outcomes & st' & Hrun & Hall & Hexec & Hprof & Hsn & _).
  rewrite Hrun. simpl. split; [| exact Hsn].
  intros ids Hids. rewrite (promiseAll_counts _ _ _ Hall Hids).
  rewrite !length_app, Hexec, Hprof. lia.
Qed.

(** X15: When loadFile returns, it has registered exactly as many files
    as it returns identifiers.  Whatever its outcome, it shows at most
    one notification, and that one only together with an empty list of
    identifiers. *)
Theorem loadFile_accounting (file : File) (st : state) :
  let run := loadFile JSON_parse toHdf convertFile contextualizeEvaluation
               contextualizeProfile uuid file st in
  (forall loaded,
      fst run = Returned loaded ->
      length (executionFiles (snd run) ++ profileFiles (snd run))
      = length (executionFiles st ++ profileFiles st) + idCount loaded)
  /\ (snackbar (snd run) = snackbar st
      \/ (snackbar (snd run) = snackbar st ++ [no_fingerprints]
          /\ fst run = Returned (ManyIDs []))).
Proof.
  cbv zeta. rewrite loadFile_run.
  destruct (match JSON_parse (contents file) with
            | Some parsed => normalizedShape parsed
            | None => false
            end).
  - pose proof (loadText_accounting
                  {| tl_filename := name file; tl_database_id := VUndefined;
                     tl_createdAt := VUndefined; tl_updatedAt := VUndefined;
                     tl_tags := VUndefined; tl_text := contents file |} st)
      as [Hcount Hsn].
    destruct (loadText _ _ _ _ _ st) as [[id | e] st']; simpl in *.
    + split; [| left; exact Hsn].
      intros loaded Hloaded. injection Hloaded as <-. exact (Hcount id eq_refl).
    + split; [| left; exact Hsn]. intros loaded Hloaded. discriminate Hloaded.
  - destruct (convertToHdf_state file (contents file) st) as [Hst | Hst];
      destruct (convertToHdf JSON_parse toHdf file (contents file) st)
        as [[[[evaluation | evaluations] |] | e] st'] eqn:Hconv;
      simpl in Hst; subst st'.
    + pose proof (loadExecJson_accounting
                    {| el_filename := name file; el_database_id := VUndefined;
                       el_createdAt := VUndefined; el_updatedAt := VUndefined;
                       el_tags := VUndefined; el_data := evaluation |} st)
        as [Hcount Hsn].
      destruct (loadExecJson _ _ _ st) as [[id | e] st']; simpl in *.
      * split; [| left; exact Hsn].
        intros loaded Hloaded. injection Hloaded as <-.
        exact (Hcount id eq_refl).
      * split; [| left; exact Hsn].
        intros loaded Hloaded. discriminate Hloaded.
    + pose proof (loadAll_accounting (name file) evaluations st)
        as [Hcount Hsn].
      destruct (loadAll _ _ _ _ st) as [[ids | e] st']; simpl in *.
      * split; [| left; exact Hsn].
        intros loaded Hloaded. injection Hloaded as <-.
        exact (Hcount ids eq_refl).
      * split; [| left; exact Hsn].
        intros loaded Hloaded. discriminate Hloaded.
    + simpl. split; [| left; reflexivity].
      intros loaded Hloaded. injection Hloaded as <-. simpl. lia.
    + simpl. split; [| left; reflexivity].
      intros loaded Hloaded. discriminate Hloaded.
    + exfalso. pose proof (convertToHdf_footprint_some file (contents file) st)
        as Hfoot. rewrite Hconv in Hfoot. exact (Hfoot _ eq_refl eq_refl).
    + exfalso. pose proof (convertToHdf_footprint_some file (contents file) st)
        as Hfoot. rewrite Hconv in Hfoot. exact (Hfoot _ eq_refl eq_refl).
    + simpl. split; [| right; split; reflexivity].
      intros loaded Hloaded. injection Hloaded as <-. simpl. lia.
    + exfalso. pose proof (convertToHdf_footprint_thrown file (contents file) st)
        as Hfoot. rewrite Hconv in Hfoot. exact (Hfoot _ eq_refl eq_refl).
Qed.

(** X16: When the dispatcher returns several executions and
    [contextualizeEvaluation] throws on one of them, loadFile throws the
    error of the first such execution; yet every load was started, so
    each execution that is accepted, before or after the failing one, is
    registered all the same. *)
Theorem loadFile_partial_failure (file : File) (good rest : list json)
  (bad : json) (e : exn) (st : state) :
  fst (isHDF JSON_parse (contents file) st) = Returned false ->
  convertToHdf JSON_parse toHdf file (contents file) st
  = (Returned (Some (Many (good ++ bad :: rest))), st) ->
  Forall (fun evaluation => accepted contextualizeEvaluation evaluation = true)
    good ->
  contextualizeEvaluation bad = inl e ->
  exists st',
    loadFile JSON_parse toHdf convertFile contextualizeEvaluation
      contextualizeProfile uuid file st
    = (Thrown e, st')
    /\ length (executionFiles st')
       = length (executionFiles st) + length good
         + length (List.filter (accepted contextualizeEvaluation) rest)
    /\ profileFiles st' = profileFiles st
    /\ snackbar st' = snackbar st.
Proof.
  intros Hhdf Hconv Hgood Hbad. rewrite isHDF_run in Hhdf. simpl in Hhdf.
  injection Hhdf as Hhdf.
  destruct (loadEach_effect (name file) (good ++ bad :: rest) st)
    as (outcomes & st' & Hrun & Hall & Hexec & Hprof & Hsn & _).
  exists st'. rewrite loadFile_run, Hhdf, Hconv. unfold loadAll.
  rewrite Hrun, (promiseAll_first_failure _ _ _ _ _ Hall Hgood Hbad).
  split; [reflexivity |]. split; [| auto].
  rewrite Hexec, List.filter_app, length_app, (filter_accepted_all _ Hgood).
  simpl. unfold accepted at 1. rewrite Hbad. lia.
Qed.

End LoadFile.

Lemma registry_ok_preserved_witness :
  registry_ok
    (snd (loadFile JsonText.parse zap_throws recognizes_nothing
            sample_contextualize sample_contextualize sample_uuid
            {| name := "snyk.json"; contents := snyk_text |} empty_state)).
Proof.
  pose proof (registry_ok_preserved JsonText.parse zap_throws
                recognizes_nothing sample_contextualize sample_contextualize
                sample_uuid) as (Hempty & _ & _ & Hfile).
  apply Hfile. exact Hempty.
Defined.

Lemma loadFile_many_witness :
  exists st',
    loadFile JsonText.parse nessus_two_hosts recognizes_nothing
      sample_contextualize sample_contextualize sample_uuid
      {| name := "Scan.NESSUS"; contents := "<NessusClientData_v2/>" |}
      empty_state
    = (Returned (ManyIDs ["file-0"; "file-1"]), st')
    /\ executionFiles st' = [0; 2]
    /\ selectedEvaluationIds st' = ["file-0"; "file-1"]
    /\ profileFiles st' = []
    /\ snackbar st' = [].
Proof.
  exact (loadFile_many JsonText.parse nessus_two_hosts recognizes_nothing
           sample_contextualize sample_contextualize sample_uuid
           {| name := "Scan.NESSUS"; contents := "<NessusClientData_v2/>" |}
           [JObj [("host", JStr "a")]; JObj [("host", JStr "b")]]
           empty_state eq_refl eq_refl
           ltac:(repeat constructor)).
Defined.

Lemma loadFile_one_witness :
  exists st',
    loadFile JsonText.parse zap_throws recognizes_nothing
      sample_contextualize sample_contextualize sample_uuid
      {| name := "snyk.json"; contents := snyk_text |} empty_state
    = (Returned (OneID "file-0"), st')
    /\ executionFiles st' = [0]
    /\ selectedEvaluationIds st' = ["file-0"]
    /\ readProp st' 0 "filename" = VString "snyk.json"
    /\ readProp st' 0 "uniqueId" = VString "file-0"
    /\ snackbar st' = [].
Proof.
  exact (loadFile_one JsonText.parse zap_throws recognizes_nothing
           sample_contextualize sample_contextualize sample_uuid
           {| name := "snyk.json"; contents := snyk_text |} (JObj [])
           [("data", VJson (JObj []))] empty_state eq_refl eq_refl eq_refl).
Defined.

Lemma loadFile_hdf_unrecognized_witness :
  exists st',
    loadFile JsonText.parse zap_throws recognizes_nothing
      sample_contextualize sample_contextualize sample_uuid
      {| name := "run.json"; contents := execution_text |} empty_state
    = (Thrown (Error could_not_parse), st')
    /\ heap st' = heap empty_state
    /\ executionFiles st' = []
    /\ profileFiles st' = []
    /\ selectedEvaluationIds st' = []
    /\ selectedProfileIds st' = []
    /\ snackbar st' = [].
Proof.
  exact (loadFile_hdf_unrecognized JsonText.parse zap_throws
           recognizes_nothing sample_contextualize sample_contextualize
           sample_uuid {| name := "run.json"; contents := execution_text |}
           (JObj [("profiles", JArr [])]) empty_state
           eq_refl eq_refl eq_refl eq_refl).
Defined.

Lemma loadFile_mapper_failure_witness :
  loadFile JsonText.parse every_mapper_throws recognizes_nothing
    sample_contextualize sample_contextualize sample_uuid
    {| name := "notes.txt"; contents := plain_text |} empty_state
  = (Thrown (Error "unsupported"), empty_state).
Proof.
  exact (loadFile_mapper_failure JsonText.parse every_mapper_throws
           recognizes_nothing sample_contextualize sample_contextualize
           sample_uuid {| name := "notes.txt"; contents := plain_text |}
           NetsparkerMapper (Error "unsupported") empty_state
           eq_refl eq_refl eq_refl).
Defined.

Lemma loadText_wrapper_fields_witness :
  let st' := snd (loadText recognizes_profile sample_contextualize
                    sample_contextualize sample_uuid tagged_text_options
                    empty_state) in
  readProp st' 0 "database_id" = VUndefined
  /\ readProp st' 0 "createdAt" = VUndefined
  /\ readProp st' 0 "updatedAt" = VUndefined
  /\ readProp st' 0 "tags" = VUndefined
  /\ readProp st' 0 "filename" = VString "run.json"
  /\ profileFiles st' = [0].
Proof.
  destruct (proj2 (loadText_wrapper_fields recognizes_profile
                     sample_contextualize sample_contextualize sample_uuid
                     tagged_text_options empty_state)
              (JObj [("controls", JArr [])]) eq_refl eq_refl)
    as (Hid & Hcreated & Hupdated & Htags & Hname & Hregistered).
  split; [exact Hid |]. split; [exact Hcreated |]. split; [exact Hupdated |].
  split; [exact Htags |]. split; [exact Hname |].
  exact (Hregistered [("data", VJson (JObj [("controls", JArr [])]))] eq_refl).
Defined.

Lemma loadExecJson_frame_witness :
  exists st',
    loadExecJson needs_profiles sample_uuid
      {| el_filename := "empty.json"; el_database_id := VUndefined;
         el_createdAt := VUndefined; el_updatedAt := VUndefined;
         el_tags := VUndefined; el_data := JObj [] |} empty_state
    = (Thrown TypeError, st')
    /\ abandoned empty_state st'.
Proof.
  exact (loadExecJson_frame needs_profiles sample_uuid
           {| el_filename := "empty.json"; el_database_id := VUndefined;
              el_createdAt := VUndefined; el_updatedAt := VUndefined;
              el_tags := VUndefined; el_data := JObj [] |} empty_state).
Defined.

Lemma loadFile_accounting_witness :
  length (executionFiles
            (snd (loadFile JsonText.parse nessus_two_hosts recognizes_nothing
                    sample_contextualize sample_contextualize sample_uuid
                    {| name := "Scan.NESSUS";
                       contents := "<NessusClientData_v2/>" |} empty_state))
          ++ profileFiles
               (snd (loadFile JsonText.parse nessus_two_hosts
                       recognizes_nothing sample_contextualize
                       sample_contextualize sample_uuid
                       {| name := "Scan.NESSUS";
                          contents := "<NessusClientData_v2/>" |} empty_state)))
  = 0 + 2.
Proof.
  exact (proj1 (loadFile_accounting JsonText.parse nessus_two_hosts
                  recognizes_nothing sample_contextualize sample_contextualize
                  sample_uuid
                  {| name := "Scan.NESSUS";
                     contents := "<NessusClientData_v2/>" |} empty_state)
           (ManyIDs ["file-0"; "file-1"]) eq_refl).
Defined.

Lemma loadFile_partial_failure_witness :
  exists st',
    loadFile JsonText.parse nessus_one_bad_host recognizes_nothing
      needs_profiles sample_contextualize sample_uuid
      {| name := "scan.nessus"; contents := "<NessusClientData_v2/>" |}
      empty_state
    = (Thrown TypeError, st')
    /\ length (executionFiles st') = 0 + 1 + 1
    /\ profileFiles st' = []
    /\ snackbar st' = [].
Proof.
  exact (loadFile_partial_failure JsonText.parse nessus_one_bad_host
           recognizes_nothing needs_profiles sample_contextualize sample_uuid
           {| name := "scan.nessus"; contents := "<NessusClientData_v2/>" |}
           [JObj [("host", JStr "a")]] [JObj [("host", JStr "c")]] (JObj [])
           TypeError empty_state eq_refl eq_refl
           ltac:(repeat constructor) eq_refl).
Defined.
